(** * boot_validate: request-parameter and certificate validation

    A shallow embedding of [app/boot_validate.py] of the PID issuer web
    service, and the properties of its validation functions.

    Python values are modelled as follows: [str] is [string], [bytes] is
    [list byte], [int] is [Z], a [dict] (and the request's
    [ImmutableMultiDict], of which only the first value per key is read) is
    a [gmap], a function that may raise returns an [outcome].  The Flask
    session and the warning log are threaded as explicit state. *)

From Stdlib Require Import ZArith Strings.Byte Strings.Ascii.
From stdpp Require Import base gmap strings list fin_maps.

Local Open Scope Z_scope.
Local Open Scope string_scope.
Local Open Scope list_scope.

(** ** Python exceptions *)

(** The classes of exception the module can meet.  Every one of them derives
    from [Exception], so a handler [except Exception] catches them all. *)
Inductive exn_class :=
| KeyError
| BadRequestKeyError    (* werkzeug: a KeyError raised by the request arguments *)
| ValueError
| TypeError
| AttributeError
| UnicodeDecodeError
| BinasciiError
| UnsupportedAlgorithm.

(** An exception: its class and the text [str(e)] gives; for the two key
    errors the text is reduced to the missing key. *)
Record exn := Exn { exn_cls : exn_class; exn_str : string }.

(** The text [str(e)] gives for werkzeug's [BadRequestKeyError]: that of the
    HTTP error, which does not name the key. *)
Definition bad_request_text : string :=
  "400 Bad Request: The browser (or proxy) sent a request that this server could not understand.".

(** [str(e)]: the recorded text, but for a [KeyError] the key between quotes
    and for a [BadRequestKeyError] the text of the HTTP error. *)
Definition str_exn (e : exn) : string :=
  match exn_cls e with
  | KeyError => "'" +:+ exn_str e +:+ "'"
  | BadRequestKeyError => bad_request_text
  | _ => exn_str e
  end.

(** The result of evaluating a Python expression or calling a function. *)
Inductive outcome (A : Type) :=
| Returns (a : A)
| Raises (e : exn).
Arguments Returns {A} a.
Arguments Raises {A} e.

#[global] Instance outcome_ret : MRet outcome := λ A a, Returns a.
#[global] Instance outcome_bind : MBind outcome := λ A B f m,
  match m with
  | Returns a => f a
  | Raises e => Raises e
  end.

(** [try: c  except Exception as e: h e] *)
Definition try_except {A} (c : outcome A) (h : exn → outcome A) : outcome A :=
  match c with
  | Returns a => Returns a
  | Raises e => h e
  end.

(** ** Data *)

Abbreviation bytes := (list byte).

(** Request arguments: [args.get(k)] and [args[k]] of the multi-dict both
    read the first value stored under [k]. *)
Abbreviation Args := (gmap string string).

(** [d[k]] on a dictionary, the session included. *)
Definition getitem {V} (d : gmap string V) (k : string) : outcome V :=
  match d !! k with
  | Some v => Returns v
  | None => Raises (Exn KeyError k)
  end.

(** [args[k]] on the request arguments. *)
Definition args_getitem (args : Args) (k : string) : outcome string :=
  match args !! k with
  | Some v => Returns v
  | None => Raises (Exn BadRequestKeyError k)
  end.

(** Public keys as the [cryptography] package hands them out.  Only an
    elliptic-curve key has the attribute [curve]. *)
Record EllipticCurvePublicNumbers := ECNumbers {
  curve_name : string;
  x : Z;
  y : Z
}.

Inductive PublicKey :=
| EllipticCurvePublicKey (public_numbers : EllipticCurvePublicNumbers)
| RSAPublicKey (n e : Z)
| Ed25519PublicKey (raw : bytes).

(** [key.public_numbers()] followed by the read of [curve]: for a key that
    is not on an elliptic curve one of the two attributes is missing. *)
Definition ec_public_numbers (k : PublicKey) : outcome EllipticCurvePublicNumbers :=
  match k with
  | EllipticCurvePublicKey pn => Returns pn
  | RSAPublicKey _ _ =>
      Raises (Exn AttributeError "'RSAPublicNumbers' object has no attribute 'curve'")
  | Ed25519PublicKey _ =>
      Raises (Exn AttributeError "'Ed25519PublicKey' object has no attribute 'public_numbers'")
  end.

(** [key.curve.name] *)
Definition key_curve_name (k : PublicKey) : outcome string :=
  match k with
  | EllipticCurvePublicKey pn => Returns (curve_name pn)
  | RSAPublicKey _ _ =>
      Raises (Exn AttributeError "'RSAPublicKey' object has no attribute 'curve'")
  | Ed25519PublicKey _ =>
      Raises (Exn AttributeError "'Ed25519PublicKey' object has no attribute 'curve'")
  end.

Record EllipticCurvePrivateKey := ECPrivate {
  private_value : Z;
  private_curve : string
}.

(** A parsed X.509 certificate: [cert.signature_algorithm_oid._name] and
    [cert.public_key()]. *)
Record Certificate := Cert {
  signature_algorithm_oid_name : string;
  public_key : outcome PublicKey
}.

(** [tinyec]: a named curve and a point on it. *)
Record Curve := TinyCurve {
  tinyec_name : string;
  field_p : Z;
  coeff_a : Z;
  coeff_b : Z
}.

Record Point := ec_Point { point_curve : Curve; point_x : Z; point_y : Z }.

(** [urllib.parse.urlparse] result. *)
Record ParseResult := UrlParts {
  scheme : string;
  netloc : string;
  path : string;
  params : string;
  query : string;
  fragment : string
}.

(** The allow-list [cfgserv.cert_algo_list]: signature algorithm name to the
    curve names accepted under it. *)
Abbreviation AllowList := (gmap string (list string)).

(** ** validate_mandatory_args *)

(** The loop of [validate_mandatory_args]: the pair [(b, l)] after one more
    name [m]. *)
Definition mandatory_step (args : Args) (acc : bool * list string) (m : string)
  : bool * list string :=
  match args !! m with
  | None => (false, acc.2 ++ [m])
  | Some _ => acc
  end.

Definition validate_mandatory_args (args : Args) (mandlist : list string)
  : bool * list string :=
  foldl (mandatory_step args) (true, []) mandlist.

(** ** The libraries and the configuration the module imports *)

(** The functions [boot_validate.py] calls in the packages it imports
    ([cryptography], [tinyec], [base64], [validators], [urllib.parse], the
    builtins [int], [bytes.decode] and [str.encode]) and in [crypto_func.py].
    The module is verified against this interface: every theorem below holds
    for whatever these functions compute. *)
Class Libraries := {
  (** [x509.load_pem_x509_certificate] *)
  load_pem_x509_certificate : bytes → outcome Certificate;
  (** [serialization.load_pem_public_key] *)
  load_pem_public_key : bytes → outcome PublicKey;
  (** the PEM loader finds no key in the empty input *)
  load_pem_public_key_empty : ∃ e, load_pem_public_key [] = Raises e;
  (** [tinyec.registry.get_curve] *)
  registry_get_curve : string → outcome Curve;
  (** Modelled from the spec: [decrypt_ECC] of [crypto_func.py], which is not
      part of the sources at hand.  The spec gives its contract as
      [decrypt(ciphertext, nonce, auth_tag, shared_point_input,
      private_scalar) -> plaintext_bytes | DecryptionFailure]; the failure is
      a raised exception. *)
  decrypt_ECC : bytes → bytes → bytes → Point → Z → outcome bytes;
  (** [bytes.decode()] *)
  bytes_decode : bytes → outcome string;
  (** [str.encode('utf-8')] *)
  str_encode : string → bytes;
  (** [base64.urlsafe_b64decode] of a [bytes] argument and of a [str] one *)
  urlsafe_b64decode : bytes → outcome bytes;
  urlsafe_b64decode_str : string → outcome bytes;
  (** the truth value of [validators.url(s)] *)
  validators_url : string → bool;
  (** [urllib.parse.urlparse] *)
  urlparse : string → outcome ParseResult;
  (** [validators.url] accepts only a URL that starts with a scheme: it
      rejects whatever [urlparse] finds no scheme in *)
  validators_url_scheme : ∀ s r,
    validators_url s = true → urlparse s = Returns r → scheme r ≠ "";
  (** the builtin [int] on a [str] *)
  py_int : string → outcome Z
}.

(** The configuration read from [app_config]: [cfgserv.error_list],
    [cfgserv.cert_algo_list] and [cfgcountries.supported_countries] (whose
    values, the per-country settings, are not read here). *)
Class Config := {
  error_list : gmap string string;
  cert_algo_list : AllowList;
  supported_countries : gmap string string
}.

(** [flask_api.status] *)
Definition HTTP_203_NON_AUTHORITATIVE_INFORMATION : Z := 203.
Definition HTTP_206_PARTIAL_CONTENT : Z := 206.
Definition HTTP_400_BAD_REQUEST : Z := 400.

(** The line feed of the literal ["\n"]. *)
Definition LF : string := String (Ascii.ascii_of_nat 10) "".

Section Leaves.
Context `{!Libraries}.

(** ** validate_cert_algo *)

Definition validate_cert_algo (certificate : bytes) (lalgo : AllowList)
  : outcome (bool * string * string) :=
  match load_pem_x509_certificate certificate with
  | Raises e => Returns (false, exn_str e, "unknown")
  | Returns cert =>
      let algname := signature_algorithm_oid_name cert in
      key ← public_key cert;
      curvname ← key_curve_name key;
      match lalgo !! algname with
      | None => Returns (false, algname, curvname)
      | Some curves =>
          if negb (bool_decide (curvname ∈ curves))
          then Returns (false, algname, curvname)
          else Returns (true, algname, curvname)
      end
  end.

(** ** validate_getpidtest_result *)

Definition validate_getpidtest_result
    (ciphertext nonce authTag : bytes)
    (ciphertextPubKey : PublicKey)
    (plaintext : string) (privatekey : EllipticCurvePrivateKey)
  : outcome bool :=
  numbers ← ec_public_numbers ciphertextPubKey;
  curve ← registry_get_curve (curve_name numbers);
  let pub := ec_Point curve (x numbers) (y numbers) in
  decryptedMsg ← decrypt_ECC ciphertext nonce authTag pub
                    (private_value privatekey);
  text ← bytes_decode decryptedMsg;
  mret (bool_decide (text = plaintext)).

(** ** is_valid_pem_public_key *)

Definition is_valid_pem_public_key (pem_key : bytes) : outcome bool :=
  try_except
    (public_key ← load_pem_public_key pem_key; mret true)
    (λ e, mret false).

End Leaves.

(** ** Statements with a session and a log *)

(** What the module reads and writes outside its arguments: the Flask
    [session] and the warnings handed to [log.logger_info.warn]. *)
Record State := mkState {
  session : gmap string string;
  warnings : list string
}.

(** How a statement ends: it falls through with a value, executes [return],
    or raises.  The state reached so far is kept in each case. *)
Inductive completion (R A : Type) :=
| Normal (a : A)
| Return (r : R)
| Raise (e : exn).
Arguments Normal {R A} a.
Arguments Return {R A} r.
Arguments Raise {R A} e.

Definition Stmt (R A : Type) : Type := State → completion R A * State.

#[global] Instance Stmt_ret R : MRet (Stmt R) := λ A a st, (Normal a, st).
#[global] Instance Stmt_bind R : MBind (Stmt R) := λ A B f m st,
  match m st with
  | (Normal a, st') => f a st'
  | (Return r, st') => (Return r, st')
  | (Raise e, st') => (Raise e, st')
  end.

(** [return r] *)
Definition return_ {R A} (r : R) : Stmt R A := λ st, (Return r, st).

(** An expression that may raise, evaluated as a statement. *)
Definition eval {R A} (o : outcome A) : Stmt R A := λ st,
  match o with
  | Returns a => (Normal a, st)
  | Raises e => (Raise e, st)
  end.

(** [if c: body] *)
Definition when_ {R} (c : bool) (body : Stmt R unit) : Stmt R unit :=
  if c then body else mret tt.

(** [try: body  except Exception as e: handler e] *)
Definition try_ {R A} (body : Stmt R A) (handler : exn → Stmt R A) : Stmt R A :=
  λ st,
  match body st with
  | (Raise e, st') => handler e st'
  | r => r
  end.

(** [session[k]] and [session[k] = v] *)
Definition session_get {R} (k : string) : Stmt R string := λ st,
  eval (getitem (session st) k) st.

Definition session_set {R} (k v : string) : Stmt R unit := λ st,
  (Normal tt, mkState (<[k := v]> (session st)) (warnings st)).

(** [log.logger_info.warn(msg)] *)
Definition warn {R} (msg : string) : Stmt R unit := λ st,
  (Normal tt, mkState (session st) (warnings st ++ [msg])).

(** A call of a function whose body is [body]: the body ends in [return] or
    raises. *)
Definition call {R} (body : Stmt R Empty_set) (st : State) : outcome R * State :=
  match body st with
  | (Normal a, _) => match a with end
  | (Return r, st') => (Returns r, st')
  | (Raise e, st') => (Raises e, st')
  end.

(** What a validation of the request returns: [True], a pair of a message
    and an HTTP status, or the response of [redirect_getpid_or_mdl]. *)
Inductive Response :=
| Valid
| LocalError (body : string) (status : Z)
| RedirectDirective (version returnURL : string) (error_num : Z)
                    (l : list (string * string)).

(** Modelled from the spec: [redirect_getpid_or_mdl] of [redirect_func.py],
    which is not part of the sources at hand.  The spec describes its result
    as a redirect directive [(protocol_version, target_url, error_code,
    extra_fields)]. *)
Definition redirect_getpid_or_mdl (version returnURL : string) (error_num : Z)
  (l : list (string * string)) : Response :=
  RedirectDirective version returnURL error_num l.

Section Orchestrators.
Context `{!Libraries, !Config}.

(** The two shapes of warning the module logs: with the route alone, and
    with the route and the device public key of the request.  Python
    evaluates the operands of [+] from left to right. *)
Definition warn_route {R} (code : string) : Stmt R unit :=
  route ← session_get "route";
  msg ← eval (getitem error_list code);
  warn (" - WARN - " +:+ route +:+ " - " +:+ msg).

Definition warn_route_key {R} (args : Args) (code : string) : Stmt R unit :=
  route ← session_get "route";
  key ← eval (args_getitem args "device_publickey");
  msg ← eval (getitem error_list code);
  warn (" - WARN - " +:+ route +:+ " - " +:+ key +:+ " - " +:+ msg).

(** [return redirect_getpid_or_mdl(session['version'], args['returnURL'],
    error_num, l)] *)
Definition return_redirect {A} (args : Args) (error_num : Z)
  (l : list (string * string)) : Stmt Response A :=
  version ← session_get "version";
  returnURL ← eval (args_getitem args "returnURL");
  return_ (redirect_getpid_or_mdl version returnURL error_num l).

(** The test of line 159:
    [not 'country' in l and args['country'] not in supported_countries.keys()];
    [and] evaluates its right operand only when the left one is true. *)
Definition country_not_supported {R} (args : Args) (l : list string) : Stmt R bool :=
  if negb (bool_decide ("country" ∈ l)) then
    country ← eval (args_getitem args "country");
    mret (negb (bool_decide (country ∈ dom supported_countries)))
  else mret false.

(** ** validate_params_getpid_or_mdl (the parameter [list] of the source
    is [mandlist] here) *)

(** Lines 136 to 176: every check that precedes the one on the format of the
    device public key. *)
Definition checks_before_public_key (args : Args) (b : bool) (l : list string)
  : Stmt Response unit :=
  (* if no device_publickey *)
  when_ (bool_decide ("device_publickey" ∈ l)) (
    warn_route "15";;
    msg ← eval (getitem error_list "15");
    return_ (LocalError ("Error 15: " +:+ msg +:+ LF) HTTP_400_BAD_REQUEST));;
  device_publickey ← eval (args_getitem args "device_publickey");
  session_set "device_publickey" device_publickey;;
  (* if no returnURL *)
  when_ (bool_decide ("returnURL" ∈ l)) (
    warn_route_key args "11";;
    msg ← eval (getitem error_list "11");
    return_ (LocalError ("Error 11: " +:+ msg +:+ LF) HTTP_400_BAD_REQUEST));;
  returnURL ← eval (args_getitem args "returnURL");
  session_set "returnURL" returnURL;;
  (* if not well-formed returnURL *)
  returnURL ← eval (args_getitem args "returnURL");
  when_ (negb (validators_url returnURL)) (
    returnURL ← eval (args_getitem args "returnURL");
    urlval ← eval (urlparse returnURL);
    when_ (bool_decide (scheme urlval = "")) (
      warn_route_key args "14";;
      msg ← eval (getitem error_list "14");
      return_ (LocalError ("Error 14: " +:+ msg +:+ LF) HTTP_400_BAD_REQUEST)));;
  (* if country not supported *)
  unsupported ← country_not_supported args l;
  when_ unsupported (
    warn_route_key args "102";;
    return_redirect args 102 []);;
  (* if some mandatory parameters are missing *)
  when_ (negb b) (
    warn_route_key args "101";;
    return_redirect args 101 []);;
  (* if no valid certificate *)
  certificate ← try_
    (encoded ← eval (args_getitem args "certificate");
     eval (urlsafe_b64decode_str encoded))
    (λ e,
       warn_route_key args "103";;
       return_redirect args 103
         [("error_str", "Certificate not correctly encoded - " +:+ str_exn e)]);
  (* if certificate curve or algorithms not supported *)
  '(v, algo, curve) ← eval (validate_cert_algo certificate cert_algo_list);
  when_ (negb v) (
    warn_route_key args "104";;
    return_redirect args 104
      [("error_str", "Certificate algorithm (" +:+ algo +:+ ") or curve ("
                     +:+ curve +:+ ") not supported.")]).

(** Lines 178 to 181: the check of the format of the device public key,
    which line 177 guards. *)
Definition public_key_format_check (args : Args) : Stmt Response unit :=
  device_publickey ← eval (args_getitem args "device_publickey");
  device_pub ← eval (urlsafe_b64decode (str_encode device_publickey));
  valid ← eval (is_valid_pem_public_key device_pub);
  when_ (bool_decide (valid = false)) (
    warn_route "16";;
    msg ← eval (getitem error_list "16");
    return_ (LocalError ("Error 16: " +:+ msg +:+ LF) HTTP_400_BAD_REQUEST)).

Definition getpid_or_mdl_body (args : Args) (mandlist : list string)
  : Stmt Response Empty_set :=
  let '(b, l) := validate_mandatory_args args mandlist in
  checks_before_public_key args b l;;
  when_ (negb (bool_decide ("device_publickey" ∈ l))) (
    public_key_format_check args);;
  (* if args are valid *)
  return_ Valid.

Definition validate_params_getpid_or_mdl (args : Args) (mandlist : list string)
  : State → outcome Response * State :=
  call (getpid_or_mdl_body args mandlist).

(** ** validate_params_showpid_or_mdl *)

Definition showpid_or_mdl_body (args : Args) (mandlist : list string)
  : Stmt Response Empty_set :=
  let '(b, l) := validate_mandatory_args args mandlist in
  (* if missing mandatory fields or no error field *)
  when_ (negb b || bool_decide ("error" ∈ l)) (
    route ← session_get "route";
    key ← session_get "device_publickey";
    msg ← eval (getitem error_list "101");
    warn (" - WARN - " +:+ route +:+ " - " +:+ key +:+ " - " +:+ msg);;
    msg ← eval (getitem error_list "101");
    return_ (LocalError ("Error 101: " +:+ msg) HTTP_206_PARTIAL_CONTENT));;
  error ← eval (args_getitem args "error");
  code ← eval (py_int error);
  when_ (negb (code =? 0)%Z) (
    error ← eval (args_getitem args "error");
    let err := error in
    error_str ← eval (args_getitem args "error_str");
    return_ (LocalError ("Error " +:+ err +:+ ": " +:+ error_str)
                        HTTP_203_NON_AUTHORITATIVE_INFORMATION));;
  (* if args are valid *)
  return_ Valid.

Definition validate_params_showpid_or_mdl (args : Args) (mandlist : list string)
  : State → outcome Response * State :=
  call (showpid_or_mdl_body args mandlist).

(** ** Vocabulary of the properties *)

(** The check of the return URL is passed by a URL that [validators.url]
    accepts and by one in which [urlparse] finds a scheme. *)
Definition returnURL_accepted (returnURL : string) : Prop :=
  validators_url returnURL = true ∨
  ∃ urlval, urlparse returnURL = Returns urlval ∧ scheme urlval ≠ "".

End Orchestrators.

(** The warning logged with the route and the device public key. *)
Definition warning (route key msg : string) : string :=
  " - WARN - " +:+ route +:+ " - " +:+ key +:+ " - " +:+ msg.

(** The state once the device public key and the return URL are recorded in
    the session and the warnings [log] are added. *)
Definition recorded (st : State) (key returnURL : string) (log : list string) : State :=
  mkState (<["returnURL" := returnURL]> (<["device_publickey" := key]> (session st)))
          (warnings st ++ log).

(** Unfolds the statement combinators, leaving the dictionary lookups and the
    library calls to be rewritten with what is known about them. *)
Ltac unfold_stmt :=
  cbv [mbind Stmt_bind mret Stmt_ret when_ eval return_ try_ session_get
       session_set warn warn_route warn_route_key return_redirect
       country_not_supported call getitem args_getitem redirect_getpid_or_mdl
       session warnings negb].

(** Runs a statement as far as the rewriting tactic [rw] decides its tests. *)
Ltac run_with rw :=
  unfold_stmt;
  repeat (progress (rw; rewrite ?lookup_insert_ne by done; cbv beta iota zeta)).

(** Splits on every test a run of a statement depends on. *)
Ltac all_runs := repeat (case_match; simplify_eq).

(** ** Vocabulary of the further properties *)

Section Vocabulary.
Context `{!Libraries, !Config}.

(** What a request needs to get past the check of its return URL: a device
    public key and a return URL that is accepted. *)
Definition reaches_country (args : Args) (key returnURL : string) : Prop :=
  args !! "device_publickey" = Some key ∧
  args !! "returnURL" = Some returnURL ∧
  returnURL_accepted returnURL.

(** What a request needs to get to the decoding of its certificate: besides,
    a value for every mandatory name and a supported country. *)
Definition reaches_certificate (args : Args) (mandlist : list string)
    (key returnURL : string) : Prop :=
  reaches_country args key returnURL ∧
  Forall (λ m, is_Some (args !! m)) mandlist ∧
  ∃ country, args !! "country" = Some country ∧
             country ∈ dom supported_countries.

(** What a request needs to get to the check of the format of its device
    public key: besides, a certificate that decodes and that
    [validate_cert_algo] accepts. *)
Definition reaches_public_key (args : Args) (mandlist : list string)
    (key returnURL : string) : Prop :=
  reaches_certificate args mandlist key returnURL ∧
  ∃ encoded certificate algo curve,
    args !! "certificate" = Some encoded ∧
    urlsafe_b64decode_str encoded = Returns certificate ∧
    validate_cert_algo certificate cert_algo_list = Returns (true, algo, curve).

End Vocabulary.

(** The warning logged with the route alone. *)
Definition route_warning (route msg : string) : string :=
  " - WARN - " +:+ route +:+ " - " +:+ msg.

(** The state once the device public key alone is recorded in the session
    and the warnings [log] are added. *)
Definition key_recorded (st : State) (key : string) (log : list string) : State :=
  mkState (<["device_publickey" := key]> (session st)) (warnings st ++ log).

(** The state once the warnings [log] are added. *)
Definition logged (st : State) (log : list string) : State :=
  mkState (session st) (warnings st ++ log).

(** Rewrites with every equation of the context whose left side occurs in
    the goal. *)
Ltac rewrite_known :=
  repeat match goal with
         | H : _ = _ |- _ => progress rewrite H
         end.

(** Runs a statement as far as the equations of the context decide its
    tests. *)
Ltac run :=
  unfold_stmt;
  repeat (progress (rewrite_known; rewrite ?lookup_insert_ne by done;
                    rewrite ?(bool_decide_eq_true_2 (false = false)) by done;
                    rewrite ?(bool_decide_eq_false_2 (true = false)) by done;
                    cbv beta iota zeta)).

(** Splits on the tests a run depends on, innermost first, and reduces the
    run after each. *)
Ltac split_run_step :=
  match goal with
  | H : context [match ?x with _ => _ end] |- _ =>
      lazymatch x with
      | context [match _ with _ => _ end] => fail
      | _ => destruct x eqn:?; cbv beta iota zeta in H
      end
  end.

Ltac split_runs := repeat first [ progress simplify_eq | split_run_step ].

(** Decides a condition on sample inputs by computation. *)
Ltac decide_sample :=
  lazymatch goal with
  | |- _ ∧ _ => split; decide_sample
  | |- _ ∨ _ => first [left; decide_sample | right; decide_sample]
  | |- ∃ _, _ => eexists; decide_sample
  | |- Forall _ _ => apply (bool_decide_unpack _); vm_compute; exact I
  | |- ¬ Forall _ _ => apply (bool_decide_unpack _); vm_compute; exact I
  | |- is_Some _ => eexists; vm_compute; reflexivity
  | |- _ ∈ dom _ => apply elem_of_dom; eexists; vm_compute; reflexivity
  | |- _ ∉ dom _ => apply not_elem_of_dom; vm_compute; reflexivity
  | |- _ ∈ _ => apply (bool_decide_unpack _); vm_compute; exact I
  | |- _ ∉ _ => apply (bool_decide_unpack _); vm_compute; exact I
  | |- _ ≠ _ => discriminate
  | |- _ = _ => vm_compute; reflexivity
  | |- _ => progress hnf; decide_sample
  end.

(** * Sample inputs

    Certificates and a public key generated with OpenSSL, their URL-safe
    base64 encodings, a configuration and a session, together with an
    instance of [Libraries] that answers on these inputs as the packages do
    and treats every other input as malformed.  The decryption of the
    instance is a stand-in of a few lines for ECDH with AES-GCM: a key-stream
    byte derived from the shared secret, and a one-byte tag.  The properties
    are proved for every instance; this one runs them. *)
Module Fixture.

(** A self-signed certificate with a key on P-256, signed with ECDSA and
    SHA-256. *)
Definition ec256_certificate_pem : string := "-----BEGIN CERTIFICATE-----
MIIBdzCCAR2gAwIBAgIUEHk7z4IY8pD//qPTJzhbt6ZoepUwCgYIKoZIzj0EAwIw
ETEPMA0GA1UEAwwGd2FsbGV0MB4XDTI2MTEwNDA5NTUwM1oXDTI3MTEwNDA5NTUw
M1owETEPMA0GA1UEAwwGd2FsbGV0MFkwEwYHKoZIzj0CAQYIKoZIzj0DAQcDQgAE
TxWY+dv5SZcgrxeehK3SsGRGmpKUEvZzM8TPz6ssUaLbGs2brreIPueNM4tW15lf
y/EkcVbY9WjoWhxiZNot2KNTMFEwHQYDVR0OBBYEFD4EatwmAA9tMbwBy9g9MTrb
Uj+gMB8GA1UdIwQYMBaAFD4EatwmAA9tMbwBy9g9MTrbUj+gMA8GA1UdEwEB/wQF
MAMBAf8wCgYIKoZIzj0EAwIDSAAwRQIhAOUPKqNOwrhaN74SitixYYkUN65l3AmL
j9HHm22gz6LmAiBLxs04KUu79lvddLlC+Rl2hxMrD8VaiRJpaeZM53VMhQ==
-----END CERTIFICATE-----
".

(** The same with a key on P-521. *)
Definition ec521_certificate_pem : string := "-----BEGIN CERTIFICATE-----
MIIB/jCCAWCgAwIBAgIUJpbMyVUwVoueF1tTNkstO7MNhwUwCgYIKoZIzj0EAwIw
ETEPMA0GA1UEAwwGd2FsbGV0MB4XDTI2MTEwNDA5NTUwM1oXDTI3MTEwNDA5NTUw
M1owETEPMA0GA1UEAwwGd2FsbGV0MIGbMBAGByqGSM49AgEGBSuBBAAjA4GGAAQA
jpgvfCMvQwPETUoQ7uCt/2IzsuVgvFkrYm36FMIhiKUj5AJi6LXY4EWTELRKg+Ra
p1XSpAyugJHmLFBaz7MBjkIBhe/2Klj4nSQooKEUVu4j3kCw8jpa0VNwAkGXg3HH
aBs01Ei2hFJ9Ae1fkaQNVRMRWwnIW3dVUQ2a6M5aeEDlCeWjUzBRMB0GA1UdDgQW
BBRVfbd9/1NttbPa3y7IGUG0xHdhGDAfBgNVHSMEGDAWgBRVfbd9/1NttbPa3y7I
GUG0xHdhGDAPBgNVHRMBAf8EBTADAQH/MAoGCCqGSM49BAMCA4GLADCBhwJBBZ6k
eGcht9ktK4a6/6ylR+kg6g/KnxkwBaJwkMDCiTaxaebbPbi1RRXKUlZDc8mdYXo4
Xyog9gtzW3OjddfmBOcCQgHpWkSMlWP9/PawoDV9TTgpHl/z0822CehoKX5+yJsW
GJtaEXlsorulphRv236Ezp610PGKZHx48fzZEbpOjFdCpw==
-----END CERTIFICATE-----
".

(** A self-signed certificate with an RSA key, signed with RSA and SHA-256. *)
Definition rsa_certificate_pem : string := "-----BEGIN CERTIFICATE-----
MIIB/jCCAWegAwIBAgIUasWMezwe48+vW3OYMhj9r7HygOswDQYJKoZIhvcNAQEL
BQAwETEPMA0GA1UEAwwGd2FsbGV0MB4XDTI2MTEwNDA5NTUwM1oXDTI3MTEwNDA5
NTUwM1owETEPMA0GA1UEAwwGd2FsbGV0MIGfMA0GCSqGSIb3DQEBAQUAA4GNADCB
iQKBgQDazvZF5fJHRmQ2Yh25XhSyz7ps6K6tYhglNlap/jqcmS9E8jJaSPxyl34p
5VWDK3NVOCi/EqOsfJkP4eb5filzVoGm8ZtynHfgFMqcz3zpCdlZYVm6ih7yLwYp
a76XB3LWN+ggkCrL+wKsoeaORnf9HIKjsnKh4mS/Nij1nvKAaQIDAQABo1MwUTAd
BgNVHQ4EFgQUlp4L02jw/UmdlALmiaTYRLjO7ycwHwYDVR0jBBgwFoAUlp4L02jw
/UmdlALmiaTYRLjO7ycwDwYDVR0TAQH/BAUwAwEB/zANBgkqhkiG9w0BAQsFAAOB
gQBDDdj27HIRVkWHGSzlLOXqLB3ywaeNIWzrUPWyxYPwDYaWgnMnjAB9c7lIk2V5
DdrrtTdpm4mmtmHqt7RVHx3GpJzvaVz4X/tkzm7RwK+u+dE9GwVPQiXhkMPgMfZy
m4UM82ZZ2o7pr/KPnCnWYPilrTaDSx5Pr8btKCbXvCazBg==
-----END CERTIFICATE-----
".

(** The public key of [ec256_certificate_pem]. *)
Definition device_public_key_pem : string := "-----BEGIN PUBLIC KEY-----
MFkwEwYHKoZIzj0CAQYIKoZIzj0DAQcDQgAETxWY+dv5SZcgrxeehK3SsGRGmpKU
EvZzM8TPz6ssUaLbGs2brreIPueNM4tW15lfy/EkcVbY9WjoWhxiZNot2A==
-----END PUBLIC KEY-----
".

(** [base64.urlsafe_b64encode] of the three texts the requests below carry. *)
Definition ec256_certificate_b64 : string := "LS0tLS1CRUdJTiBDRVJUSUZJQ0FURS0tLS0tCk1JSUJkekNDQVIyZ0F3SUJBZ0lVRUhrN3o0SVk4cEQvL3FQVEp6aGJ0NlpvZXBVd0NnWUlLb1pJemowRUF3SXcKRVRFUE1BMEdBMVVFQXd3R2QyRnNiR1YwTUI0WERUSTJNVEV3TkRBNU5UVXdNMW9YRFRJM01URXdOREE1TlRVdwpNMW93RVRFUE1BMEdBMVVFQXd3R2QyRnNiR1YwTUZrd0V3WUhLb1pJemowQ0FRWUlLb1pJemowREFRY0RRZ0FFClR4V1krZHY1U1pjZ3J4ZWVoSzNTc0dSR21wS1VFdlp6TThUUHo2c3NVYUxiR3MyYnJyZUlQdWVOTTR0VzE1bGYKeS9Fa2NWYlk5V2pvV2h4aVpOb3QyS05UTUZFd0hRWURWUjBPQkJZRUZENEVhdHdtQUE5dE1id0J5OWc5TVRyYgpVaitnTUI4R0ExVWRJd1FZTUJhQUZENEVhdHdtQUE5dE1id0J5OWc5TVRyYlVqK2dNQThHQTFVZEV3RUIvd1FGCk1BTUJBZjh3Q2dZSUtvWkl6ajBFQXdJRFNBQXdSUUloQU9VUEtxTk93cmhhTjc0U2l0aXhZWWtVTjY1bDNBbUwKajlISG0yMmd6NkxtQWlCTHhzMDRLVXU3OWx2ZGRMbEMrUmwyaHhNckQ4VmFpUkpwYWVaTTUzVk1oUT09Ci0tLS0tRU5EIENFUlRJRklDQVRFLS0tLS0K".

Definition ec521_certificate_b64 : string := "LS0tLS1CRUdJTiBDRVJUSUZJQ0FURS0tLS0tCk1JSUIvakNDQVdDZ0F3SUJBZ0lVSnBiTXlWVXdWb3VlRjF0VE5rc3RPN01OaHdVd0NnWUlLb1pJemowRUF3SXcKRVRFUE1BMEdBMVVFQXd3R2QyRnNiR1YwTUI0WERUSTJNVEV3TkRBNU5UVXdNMW9YRFRJM01URXdOREE1TlRVdwpNMW93RVRFUE1BMEdBMVVFQXd3R2QyRnNiR1YwTUlHYk1CQUdCeXFHU000OUFnRUdCU3VCQkFBakE0R0dBQVFBCmpwZ3ZmQ012UXdQRVRVb1E3dUN0LzJJenN1Vmd2RmtyWW0zNkZNSWhpS1VqNUFKaTZMWFk0RVdURUxSS2crUmEKcDFYU3BBeXVnSkhtTEZCYXo3TUJqa0lCaGUvMktsajRuU1Fvb0tFVVZ1NGoza0N3OGpwYTBWTndBa0dYZzNISAphQnMwMUVpMmhGSjlBZTFma2FRTlZSTVJXd25JVzNkVlVRMmE2TTVhZUVEbENlV2pVekJSTUIwR0ExVWREZ1FXCkJCUlZmYmQ5LzFOdHRiUGEzeTdJR1VHMHhIZGhHREFmQmdOVkhTTUVHREFXZ0JSVmZiZDkvMU50dGJQYTN5N0kKR1VHMHhIZGhHREFQQmdOVkhSTUJBZjhFQlRBREFRSC9NQW9HQ0NxR1NNNDlCQU1DQTRHTEFEQ0Jod0pCQlo2awplR2NodDlrdEs0YTYvNnlsUitrZzZnL0tueGt3QmFKd2tNRENpVGF4YWViYlBiaTFSUlhLVWxaRGM4bWRZWG80Clh5b2c5Z3R6VzNPamRkZm1CT2NDUWdIcFdrU01sV1A5L1Bhd29EVjlUVGdwSGwvejA4MjJDZWhvS1g1K3lKc1cKR0p0YUVYbHNvcnVscGhSdjIzNkV6cDYxMFBHS1pIeDQ4ZnpaRWJwT2pGZENwdz09Ci0tLS0tRU5EIENFUlRJRklDQVRFLS0tLS0K".

Definition device_public_key_b64 : string := "LS0tLS1CRUdJTiBQVUJMSUMgS0VZLS0tLS0KTUZrd0V3WUhLb1pJemowQ0FRWUlLb1pJemowREFRY0RRZ0FFVHhXWStkdjVTWmNncnhlZWhLM1NzR1JHbXBLVQpFdlp6TThUUHo2c3NVYUxiR3MyYnJyZUlQdWVOTTR0VzE1bGZ5L0VrY1ZiWTlXam9XaHhpWk5vdDJBPT0KLS0tLS1FTkQgUFVCTElDIEtFWS0tLS0tCg==".

Definition ec256_numbers : EllipticCurvePublicNumbers :=
  ECNumbers "secp256r1"
    35770874628075765827847126994063231147237121168651396934829892520752855142818
    99103870918612242042511099514531504227355166621775810325627928926250369428952.

Definition ec521_numbers : EllipticCurvePublicNumbers :=
  ECNumbers "secp521r1"
    1911879326801786406284722034003830186438430616363534789023501346175074501819429816643957378655148765879196058825397559800563224371547260015111716813341298242
    5228205092655647486042141076500501268313662946651540674471104942467186019995140472912863758980898034947877056975254115492379189744880714360376347553022937573.

Definition rsa_modulus : Z :=
  153652515631525121204651641638673585897730062345428856763285476880852678747441910988046740882142719065060410143536811291987935607962034766738240340630431559531705276646701488114943465352716683321565926070885243298868982821211128120709796481959491506721618550644313805120918218173382673446815819333534355718249.

Definition secp256r1 : Curve :=
  TinyCurve "secp256r1"
    115792089210356248762697446949407573530086143415290314195533631308867097853951
    (-3)
    41058363725152142129326129780047268409114441015993725554835256314039467401291.

Definition pem_error : exn :=
  Exn ValueError "Unable to load PEM file. MalformedFraming".

Definition sample_load_pem_x509_certificate (data : bytes) : outcome Certificate :=
  let text := String.string_of_list_byte data in
  if String.eqb text ec256_certificate_pem then
    Returns (Cert "ecdsa-with-SHA256" (Returns (EllipticCurvePublicKey ec256_numbers)))
  else if String.eqb text ec521_certificate_pem then
    Returns (Cert "ecdsa-with-SHA256" (Returns (EllipticCurvePublicKey ec521_numbers)))
  else if String.eqb text rsa_certificate_pem then
    Returns (Cert "sha256WithRSAEncryption" (Returns (RSAPublicKey rsa_modulus 65537)))
  else Raises pem_error.

Definition sample_load_pem_public_key (data : bytes) : outcome PublicKey :=
  if String.eqb (String.string_of_list_byte data) device_public_key_pem
  then Returns (EllipticCurvePublicKey ec256_numbers)
  else Raises pem_error.

Definition sample_get_curve (name : string) : outcome Curve :=
  if String.eqb name "secp256r1" then Returns secp256r1
  else Raises (Exn ValueError "Unknown elliptic curve name").

(** The characters [base64.urlsafe_b64decode] reads as data; it skips the
    others. *)
Definition in_alphabet (c : Ascii.ascii) : bool :=
  let n := Ascii.N_of_ascii c in
  ((65 <=? n) && (n <=? 90) || (97 <=? n) && (n <=? 122) ||
   (48 <=? n) && (n <=? 57) || (n =? 43) || (n =? 47) || (n =? 45) || (n =? 95))%N.

Fixpoint no_data (s : string) : bool :=
  match s with
  | EmptyString => true
  | String c rest => negb (in_alphabet c) && no_data rest
  end.

(** The three encoded texts decode to their sources and a text without data
    characters to no bytes; any other text stands for one whose data
    characters do not fill their last group. *)
Definition sample_urlsafe_b64decode_str (s : string) : outcome bytes :=
  if String.eqb s ec256_certificate_b64 then
    Returns (String.list_byte_of_string ec256_certificate_pem)
  else if String.eqb s ec521_certificate_b64 then
    Returns (String.list_byte_of_string ec521_certificate_pem)
  else if String.eqb s device_public_key_b64 then
    Returns (String.list_byte_of_string device_public_key_pem)
  else if no_data s then Returns []
  else Raises (Exn BinasciiError "Incorrect padding").

Definition sample_urlsafe_b64decode (data : bytes) : outcome bytes :=
  sample_urlsafe_b64decode_str (String.string_of_list_byte data).

(** ASCII text decodes to itself; a byte above 127 is taken to start no valid
    sequence. *)
Definition sample_decode (data : bytes) : outcome string :=
  if forallb (λ c, (Byte.to_N c <? 128)%N) data
  then Returns (String.string_of_list_byte data)
  else Raises (Exn UnicodeDecodeError "'utf-8' codec can't decode byte").

(** URLs of the two schemes the requests below use, without parameters,
    query or fragment. *)
Definition split_authority (rest : string) : string * string :=
  match String.index 0 "/"%string rest with
  | Some i => (String.substring 0 i rest,
               String.substring i (String.length rest - i) rest)
  | None => (rest, "")
  end.

Definition sample_urlparse (s : string) : outcome ParseResult :=
  if String.prefix "https://" s then
    let '(host, rest) := split_authority (String.substring 8 (String.length s - 8) s) in
    Returns (UrlParts "https" host rest "" "" "")
  else if String.prefix "http://" s then
    let '(host, rest) := split_authority (String.substring 7 (String.length s - 7) s) in
    Returns (UrlParts "http" host rest "" "" "")
  else Returns (UrlParts "" "" s "" "" "").

Definition sample_validators_url (s : string) : bool :=
  String.prefix "https://" s || String.prefix "http://" s.

(** Decimal literals with an optional sign. *)
Definition digit (c : Ascii.ascii) : option Z :=
  let n := Z.of_N (Ascii.N_of_ascii c) in
  if (48 <=? n)%Z && (n <=? 57)%Z then Some (n - 48)%Z else None.

Fixpoint digits (acc : Z) (s : string) : option Z :=
  match s with
  | EmptyString => Some acc
  | String c rest =>
      match digit c with
      | Some d => digits (10 * acc + d) rest
      | None => None
      end
  end.

Definition sample_int (s : string) : outcome Z :=
  let invalid := Raises (Exn ValueError ("invalid literal for int() with base 10: '" +:+ s +:+ "'")) in
  match s with
  | EmptyString => invalid
  | String c rest =>
      if Ascii.eqb c "-"%char then
        match rest, digits 0 rest with
        | String _ _, Some n => Returns (- n)
        | _, _ => invalid
        end
      else
        match digits 0 s with
        | Some n => Returns n
        | None => invalid
        end
  end.

(** The stand-in for [decrypt_ECC]. *)
Definition byte_sum (data : bytes) : Z :=
  foldr (λ c acc, Z.of_N (Byte.to_N c) + acc) 0 data.

Definition shared_secret (pub : Point) (privKey : Z) : Z :=
  (privKey * point_x pub) mod field_p (point_curve pub).

Definition mask (secret : Z) (c : byte) : byte :=
  default c (Byte.of_N (N.lxor (Byte.to_N c) (Z.to_N (secret mod 256)))).

Definition tag_of (secret : Z) (ciphertext nonce : bytes) : N :=
  Z.to_N ((secret + byte_sum ciphertext + byte_sum nonce) mod 256).

Definition sample_encrypt (secret : Z) (msg nonce : bytes) : bytes * bytes :=
  let ciphertext := mask secret <$> msg in
  (ciphertext, default [] (Byte.of_N (tag_of secret ciphertext nonce) ≫= λ t, Some [t])).

Definition sample_decrypt_ECC (ciphertext nonce authTag : bytes) (pub : Point)
  (privKey : Z) : outcome bytes :=
  let secret := shared_secret pub privKey in
  if bool_decide (Byte.to_N <$> authTag = [tag_of secret ciphertext nonce])
  then Returns (mask secret <$> ciphertext)
  else Raises (Exn ValueError "MAC check failed").

#[export] Instance libraries : Libraries := {|
  load_pem_x509_certificate := sample_load_pem_x509_certificate;
  load_pem_public_key := sample_load_pem_public_key;
  load_pem_public_key_empty := ex_intro _ pem_error eq_refl;
  registry_get_curve := sample_get_curve;
  decrypt_ECC := sample_decrypt_ECC;
  bytes_decode := sample_decode;
  str_encode := String.list_byte_of_string;
  urlsafe_b64decode := sample_urlsafe_b64decode;
  urlsafe_b64decode_str := sample_urlsafe_b64decode_str;
  validators_url := sample_validators_url;
  urlparse := sample_urlparse;
  validators_url_scheme := ltac:(
    intros s r; unfold sample_validators_url, sample_urlparse;
    destruct (String.prefix "https://" s);
      [ destruct (split_authority _); intros _ [= <-]; discriminate | ];
    destruct (String.prefix "http://" s);
      [ destruct (split_authority _); intros _ [= <-]; discriminate | ];
    simpl; discriminate);
  py_int := sample_int
|}.

#[export] Instance config : Config := {|
  error_list := list_to_map [
    ("11", "Query with no returnURL.");
    ("14", "returnURL is not a well-formed URL.");
    ("15", "Query with no device_publickey.");
    ("16", "device_publickey is not a PEM public key.");
    ("101", "Missing mandatory fields.");
    ("102", "Country is not supported.");
    ("103", "Certificate not correctly encoded.");
    ("104", "Certificate algorithm or curve not supported.")];
  cert_algo_list := list_to_map [
    ("ecdsa-with-SHA256", ["secp256r1"]);
    ("ecdsa-with-SHA384", ["secp384r1"]);
    ("ecdsa-with-SHA512", ["secp521r1"])];
  supported_countries := list_to_map [
    ("EU", "nodeEU"); ("PT", "Portugal"); ("EE", "Estonia"); ("CZ", "Czechia")]
|}.

Definition mandatory : list string :=
  ["version"; "country"; "certificate"; "returnURL"; "device_publickey"].

Definition request (country certificate returnURL : string) : Args :=
  list_to_map [
    ("version", "0.4"); ("country", country); ("certificate", certificate);
    ("returnURL", returnURL); ("device_publickey", device_public_key_b64)].

Definition start : State :=
  mkState (list_to_map [("route", "/pid/getpid"); ("version", "0.4")]) [].

(** A message encrypted for the private key [recipient] under the key on
    [ec256_numbers], with a nonce of two bytes. *)
Definition recipient : EllipticCurvePrivateKey := ECPrivate 1234567 "secp256r1".
Definition stranger : EllipticCurvePrivateKey := ECPrivate 7654321 "secp256r1".
Definition nonce : bytes := [x17; x2a].
Definition sealed : bytes * bytes :=
  sample_encrypt
    (shared_secret (ec_Point secp256r1 (x ec256_numbers) (y ec256_numbers))
                   (private_value recipient))
    (String.list_byte_of_string "hello") nonce.

End Fixture.

(** * Further sample inputs

    Requests that leave out a field or carry a malformed one, a request for
    the show page, and a second instance of [Libraries] that also decodes the
    certificate with the RSA key and whose [urlparse] raises on a bracket
    that is not closed, as [urllib.parse] does. *)
Module Samples.
Import Fixture.

(** The request of the fixture with another device public key. *)
Definition request_with_key (key country certificate returnURL : string) : Args :=
  list_to_map [
    ("version", "0.4"); ("country", country); ("certificate", certificate);
    ("returnURL", returnURL); ("device_publickey", key)].

Definition good_request : Args :=
  request "PT" ec256_certificate_b64 "https://wallet.example/cb".

(** Mandatory lists without one of the names. *)
Definition without_key : list string :=
  ["version"; "country"; "certificate"; "returnURL"].
Definition without_returnURL : list string :=
  ["version"; "country"; "certificate"; "device_publickey"].
Definition without_country : list string :=
  ["version"; "certificate"; "returnURL"; "device_publickey"].

(** [base64.urlsafe_b64encode] of [rsa_certificate_pem]. *)
Definition rsa_certificate_b64 : string := "LS0tLS1CRUdJTiBDRVJUSUZJQ0FURS0tLS0tCk1JSUIvakNDQVdlZ0F3SUJBZ0lVYXNXTWV6d2U0OCt2VzNPWU1oajlyN0h5Z09zd0RRWUpLb1pJaHZjTkFRRUwKQlFBd0VURVBNQTBHQTFVRUF3d0dkMkZzYkdWME1CNFhEVEkyTVRFd05EQTVOVFV3TTFvWERUSTNNVEV3TkRBNQpOVFV3TTFvd0VURVBNQTBHQTFVRUF3d0dkMkZzYkdWME1JR2ZNQTBHQ1NxR1NJYjNEUUVCQVFVQUE0R05BRENCCmlRS0JnUURhenZaRjVmSkhSbVEyWWgyNVhoU3l6N3BzNks2dFloZ2xObGFwL2pxY21TOUU4akphU1B4eWwzNHAKNVZXREszTlZPQ2kvRXFPc2ZKa1A0ZWI1ZmlselZvR204WnR5bkhmZ0ZNcWN6M3pwQ2RsWllWbTZpaDd5THdZcAphNzZYQjNMV04rZ2drQ3JMK3dLc29lYU9SbmY5SElLanNuS2g0bVMvTmlqMW52S0FhUUlEQVFBQm8xTXdVVEFkCkJnTlZIUTRFRmdRVWxwNEwwMmp3L1VtZGxBTG1pYVRZUkxqTzd5Y3dId1lEVlIwakJCZ3dGb0FVbHA0TDAyancKL1VtZGxBTG1pYVRZUkxqTzd5Y3dEd1lEVlIwVEFRSC9CQVV3QXdFQi96QU5CZ2txaGtpRzl3MEJBUXNGQUFPQgpnUUJERGRqMjdISVJWa1dIR1N6bExPWHFMQjN5d2FlTklXenJVUFd5eFlQd0RZYVdnbk1uakFCOWM3bElrMlY1CkRkcnJ0VGRwbTRtbXRtSHF0N1JWSHgzR3BKenZhVno0WC90a3ptN1J3Syt1K2RFOUd3VlBRaVhoa01QZ01mWnkKbTRVTTgyWloybzdwci9LUG5DbldZUGlsclRhRFN4NVByOGJ0S0NiWHZDYXpCZz09Ci0tLS0tRU5EIENFUlRJRklDQVRFLS0tLS0K".

Definition unclosed_bracket (s : string) : bool :=
  String.prefix "http://[" s &&
  match String.index 0 "]"%string s with Some _ => false | None => true end.

Definition bracket_urlparse (s : string) : outcome ParseResult :=
  if unclosed_bracket s then Raises (Exn ValueError "Invalid IPv6 URL")
  else sample_urlparse s.

Definition bracket_validators_url (s : string) : bool :=
  if unclosed_bracket s then false else sample_validators_url s.

Definition rsa_urlsafe_b64decode_str (s : string) : outcome bytes :=
  if String.eqb s rsa_certificate_b64
  then Returns (String.list_byte_of_string rsa_certificate_pem)
  else sample_urlsafe_b64decode_str s.

Definition wider_libraries : Libraries := {|
  load_pem_x509_certificate := sample_load_pem_x509_certificate;
  load_pem_public_key := sample_load_pem_public_key;
  load_pem_public_key_empty := ex_intro _ pem_error eq_refl;
  registry_get_curve := sample_get_curve;
  decrypt_ECC := sample_decrypt_ECC;
  bytes_decode := sample_decode;
  str_encode := String.list_byte_of_string;
  urlsafe_b64decode := sample_urlsafe_b64decode;
  urlsafe_b64decode_str := rsa_urlsafe_b64decode_str;
  validators_url := bracket_validators_url;
  urlparse := bracket_urlparse;
  validators_url_scheme := ltac:(
    intros s r; unfold bracket_validators_url, bracket_urlparse;
    destruct (unclosed_bracket s); [discriminate |];
    apply (validators_url_scheme (Libraries := libraries)));
  py_int := sample_int
|}.

(** A third instance of the libraries, whose [urlparse] raises on a network
    location, the text after a leading [//], that opens a bracket and does
    not close it, as [urllib.parse] does; [validators.url] rejects such a
    text, which has no scheme. *)
Definition open_netloc (s : string) : bool :=
  String.prefix "//" s &&
  match String.index 0 "["%string s, String.index 0 "]"%string s with
  | Some _, None => true
  | _, _ => false
  end.

Definition netloc_urlparse (s : string) : outcome ParseResult :=
  if open_netloc s then Raises (Exn ValueError "Invalid IPv6 URL")
  else sample_urlparse s.

Definition netloc_validators_url (s : string) : bool :=
  if open_netloc s then false else sample_validators_url s.

Definition netloc_libraries : Libraries := {|
  load_pem_x509_certificate := sample_load_pem_x509_certificate;
  load_pem_public_key := sample_load_pem_public_key;
  load_pem_public_key_empty := ex_intro _ pem_error eq_refl;
  registry_get_curve := sample_get_curve;
  decrypt_ECC := sample_decrypt_ECC;
  bytes_decode := sample_decode;
  str_encode := String.list_byte_of_string;
  urlsafe_b64decode := sample_urlsafe_b64decode;
  urlsafe_b64decode_str := sample_urlsafe_b64decode_str;
  validators_url := netloc_validators_url;
  urlparse := netloc_urlparse;
  validators_url_scheme := ltac:(
    intros s r; unfold netloc_validators_url, netloc_urlparse;
    destruct (open_netloc s); [discriminate |];
    apply (validators_url_scheme (Libraries := libraries)));
  py_int := sample_int
|}.

Definition without_certificate : list string :=
  ["version"; "country"; "returnURL"; "device_publickey"].

(** The state a valid request leaves behind. *)
Definition issued : State :=
  recorded start device_public_key_b64 "https://wallet.example/cb" [].

(** The state a request from an unsupported country leaves behind. *)
Definition rejected : State :=
  recorded start device_public_key_b64 "https://wallet.example/cb"
    [warning "/pid/getpid" device_public_key_b64 "Country is not supported."].

(** Requests for the show page and their mandatory list. *)
Definition show_mandatory : list string := ["version"; "error"].

Definition show_request (error : string) : Args :=
  list_to_map [("version", "0.4"); ("error", error); ("error_str", "denied")].

End Samples.

(** * Properties *)

(** ** The loop of validate_mandatory_args *)

Lemma mandatory_loop args mandlist b l :
  foldl (mandatory_step args) (b, l) mandlist =
  (b && forallb (λ m, bool_decide (is_Some (args !! m))) mandlist,
   l ++ filter (λ m, args !! m = None) mandlist).
Proof.
  revert b l. induction mandlist as [|m ms IH]; intros b l; simpl.
  - by rewrite andb_true_r, app_nil_r.
  - unfold mandatory_step at 2. rewrite filter_cons.
    destruct (args !! m) as [v|] eqn:Hm; simpl; rewrite IH.
    + done.
    + by rewrite andb_false_r, <- app_assoc.
Qed.

Lemma validate_mandatory_args_eq args mandlist :
  validate_mandatory_args args mandlist =
  (forallb (λ m, bool_decide (is_Some (args !! m))) mandlist,
   filter (λ m, args !! m = None) mandlist).
Proof. unfold validate_mandatory_args. by rewrite mandatory_loop. Qed.

(** ** The missing list *)

Lemma missing_elem (args : Args) (mandlist : list string) (m : string) :
  m ∈ (validate_mandatory_args args mandlist).2 ↔ m ∈ mandlist ∧ args !! m = None.
Proof.
  rewrite validate_mandatory_args_eq. simpl.
  rewrite list_elem_of_filter. tauto.
Qed.

Lemma present_not_missing (args : Args) (mandlist : list string) (m v : string) :
  args !! m = Some v →
  bool_decide (m ∈ (validate_mandatory_args args mandlist).2) = false.
Proof.
  intros Hm. apply bool_decide_eq_false_2. rewrite missing_elem.
  intros [_ Hn]. congruence.
Qed.

Lemma all_present_forallb (args : Args) (mandlist : list string) :
  forallb (λ m, bool_decide (is_Some (args !! m))) mandlist = true ↔
  Forall (λ m, is_Some (args !! m)) mandlist.
Proof.
  rewrite forallb_forall, Forall_forall.
  split; intros H m Hm.
  - apply list_elem_of_In, H in Hm. by apply bool_decide_eq_true_1 in Hm.
  - apply bool_decide_eq_true_2, H. by apply list_elem_of_In.
Qed.

Lemma filter_absent_nil (args : Args) (mandlist : list string) :
  filter (λ m, args !! m = None) mandlist = [] ↔
  Forall (λ m, is_Some (args !! m)) mandlist.
Proof.
  induction mandlist as [|m ms IH]; simpl.
  - split; [constructor | done].
  - rewrite filter_cons, Forall_cons. destruct (args !! m) as [v|] eqn:Hm.
    + rewrite decide_False by done. rewrite IH. split; [eauto | tauto].
    + rewrite decide_True by done. split; [done |].
      intros [[? ?] _]. done.
Qed.

Lemma all_present_valid (args : Args) (mandlist : list string) :
  Forall (λ m, is_Some (args !! m)) mandlist →
  validate_mandatory_args args mandlist = (true, []).
Proof.
  intros H. rewrite validate_mandatory_args_eq. f_equal.
  - by apply all_present_forallb.
  - by apply filter_absent_nil.
Qed.

Lemma filter_name_absent (args : Args) (mandlist : list string) (m : string) :
  args !! m = None →
  filter (λ n, n = m) (filter (λ n, args !! n = None) mandlist) =
  filter (λ n, n = m) mandlist.
Proof.
  intros Hm. induction mandlist as [|n ns IH]; [done |].
  rewrite !filter_cons. destruct (decide (n = m)) as [->|Hne].
  - rewrite decide_True by done. rewrite filter_cons, decide_True by done.
    by rewrite IH.
  - destruct (decide (args !! n = None)); [|done].
    rewrite filter_cons, decide_False by done. done.
Qed.

(** C3.  [validate_mandatory_args] returns [(True, [])] exactly when every
    name of [mandlist] has a value in [args]; otherwise it returns [False]
    and the names without a value, in the order of [mandlist] and once per
    occurrence.  A name whose value is the empty string has a value. *)
Theorem validate_mandatory_args_spec (args : Args) (mandlist : list string) :
  let result := validate_mandatory_args args mandlist in
  let present := λ m : string, is_Some (args !! m) in
  (result = (true, []) ↔ Forall present mandlist) ∧
  (¬ Forall present mandlist →
     result = (false, filter (λ m, args !! m = None) mandlist)) ∧
  (∀ m : string,
     args !! m = None →
     length (filter (λ n, n = m) result.2) =
     length (filter (λ n, n = m) mandlist)) ∧
  (∀ m : string, args !! m = Some "" → m ∉ result.2).
Proof.
  simpl. repeat split.
  - rewrite validate_mandatory_args_eq. intros [= Hb Hl].
    by apply filter_absent_nil.
  - apply all_present_valid.
  - intros Hn. rewrite validate_mandatory_args_eq. f_equal.
    apply not_true_is_false. by rewrite all_present_forallb.
  - intros m Hm. rewrite validate_mandatory_args_eq. simpl.
    by rewrite filter_name_absent.
  - intros m Hm. rewrite missing_elem. intros [_ Hn]. congruence.
Qed.

(** ** The certificate and key validators *)

Section LeafProperties.
Context `{!Libraries}.

(** C6.  When the bytes do not parse as a PEM certificate,
    [validate_cert_algo] returns [(False, str(e), "unknown")] for the
    exception [e] of the parser: the message travels in the algorithm field
    and nothing is raised. *)
Theorem validate_cert_algo_parse_failure (certificate : bytes) (lalgo : AllowList)
    (e : exn) :
  load_pem_x509_certificate certificate = Raises e →
  validate_cert_algo certificate lalgo = Returns (false, exn_str e, "unknown").
Proof. intros Hload. unfold validate_cert_algo. by rewrite Hload. Qed.

(** The two-stage lookup of [validate_cert_algo] once the algorithm and the
    curve are extracted. *)
Lemma validate_cert_algo_extracted (certificate : bytes) (lalgo : AllowList)
    (cert : Certificate) (numbers : EllipticCurvePublicNumbers) :
  load_pem_x509_certificate certificate = Returns cert →
  public_key cert = Returns (EllipticCurvePublicKey numbers) →
  validate_cert_algo certificate lalgo =
  Returns (match lalgo !! signature_algorithm_oid_name cert with
           | Some curves => bool_decide (curve_name numbers ∈ curves)
           | None => false
           end,
           signature_algorithm_oid_name cert, curve_name numbers).
Proof.
  intros Hload Hkey. unfold validate_cert_algo. rewrite Hload, Hkey. simpl.
  destruct (lalgo !! signature_algorithm_oid_name cert) as [curves|]; [|done].
  by destruct (bool_decide (curve_name numbers ∈ curves)).
Qed.

(** X1.  For a certificate that parses and carries an elliptic-curve key,
    [validate_cert_algo] rejects an algorithm that is no key of the
    allow-list, rejects a curve outside the list of its algorithm whatever
    the lists of the other algorithms hold, accepts exactly when the
    algorithm is a key and the curve is in its list, and reports the pair it
    extracted in each case. *)
Theorem validate_cert_algo_elliptic (certificate : bytes) (lalgo : AllowList)
    (cert : Certificate) (numbers : EllipticCurvePublicNumbers) :
  load_pem_x509_certificate certificate = Returns cert →
  public_key cert = Returns (EllipticCurvePublicKey numbers) →
  let algname := signature_algorithm_oid_name cert in
  let curvname := curve_name numbers in
  (lalgo !! algname = None →
     validate_cert_algo certificate lalgo = Returns (false, algname, curvname)) ∧
  (∀ curves, lalgo !! algname = Some curves → curvname ∉ curves →
     validate_cert_algo certificate lalgo = Returns (false, algname, curvname)) ∧
  (validate_cert_algo certificate lalgo = Returns (true, algname, curvname) ↔
     ∃ curves, lalgo !! algname = Some curves ∧ curvname ∈ curves) ∧
  (∃ ok, validate_cert_algo certificate lalgo = Returns (ok, algname, curvname)).
Proof.
  intros Hload Hkey. simpl.
  rewrite (validate_cert_algo_extracted _ _ _ _ Hload Hkey).
  destruct (lalgo !! signature_algorithm_oid_name cert) as [curves|] eqn:Ha.
  - repeat split; try done; eauto.
    + intros curves' [= <-] Hout. by rewrite bool_decide_eq_false_2.
    + intros [= Hb]. apply bool_decide_eq_true_1 in Hb. eauto.
    + intros (curves' & [= <-] & Hin). by rewrite bool_decide_eq_true_2.
  - repeat split; try done; eauto. by intros (curves & ? & _).
Qed.

(** C2.  The code reads the curve of the public key before it looks the
    algorithm up, and outside the handler of the parser: for a certificate
    that parses and whose key is not on an elliptic curve, the
    [AttributeError] of [cert.public_key().curve] is the outcome, whatever
    the allow-list, and no triple is returned. *)
Theorem validate_cert_algo_key_without_curve (certificate : bytes)
    (lalgo : AllowList) (cert : Certificate) (key : PublicKey) :
  load_pem_x509_certificate certificate = Returns cert →
  public_key cert = Returns key →
  (∀ numbers, key ≠ EllipticCurvePublicKey numbers) →
  ∃ e, validate_cert_algo certificate lalgo = Raises e ∧ exn_cls e = AttributeError.
Proof.
  intros Hload Hkey Hne. unfold validate_cert_algo. rewrite Hload, Hkey. simpl.
  destruct key as [numbers| |]; [by destruct (Hne numbers) | |]; simpl; eauto.
Qed.

(** C7.  [is_valid_pem_public_key] never raises: it returns [True] exactly
    when the PEM loader returns a key and [False] exactly when the loader
    raises, as it does on the empty input. *)
Theorem is_valid_pem_public_key_spec (pem_key : bytes) :
  (is_valid_pem_public_key pem_key = Returns true ↔
     ∃ key, load_pem_public_key pem_key = Returns key) ∧
  (is_valid_pem_public_key pem_key = Returns false ↔
     ∃ e, load_pem_public_key pem_key = Raises e) ∧
  (∀ e, is_valid_pem_public_key pem_key ≠ Raises e) ∧
  is_valid_pem_public_key [] = Returns false.
Proof.
  unfold is_valid_pem_public_key.
  destruct load_pem_public_key_empty as [e0 He0]. rewrite He0.
  destruct (load_pem_public_key pem_key) as [key|e]; simpl.
  - repeat split; try done; eauto. by intros [e He].
  - repeat split; try done; eauto. by intros [key Hk].
Qed.

(** What [validate_getpidtest_result] returns once the curve is found and
    the decryption and the decoding have succeeded. *)
Lemma validate_getpidtest_result_decrypted (ciphertext nonce authTag : bytes)
    (numbers : EllipticCurvePublicNumbers) (plaintext : string)
    (privatekey : EllipticCurvePrivateKey) (curve : Curve) (msg : bytes)
    (text : string) :
  registry_get_curve (curve_name numbers) = Returns curve →
  decrypt_ECC ciphertext nonce authTag
    (ec_Point curve (x numbers) (y numbers)) (private_value privatekey) = Returns msg →
  bytes_decode msg = Returns text →
  validate_getpidtest_result ciphertext nonce authTag
    (EllipticCurvePublicKey numbers) plaintext privatekey =
  Returns (bool_decide (text = plaintext)).
Proof.
  intros Hcurve Hdec Htext. unfold validate_getpidtest_result. simpl.
  rewrite Hcurve. simpl. rewrite Hdec. simpl. by rewrite Htext.
Qed.

(** X2.  [validate_getpidtest_result] returns [True] exactly when the curve
    is found, the decryption succeeds and the decrypted bytes decode to the
    expected plaintext; it returns [False] exactly when they decode to
    another text. *)
Theorem validate_getpidtest_result_boolean (ciphertext nonce authTag : bytes)
    (numbers : EllipticCurvePublicNumbers) (plaintext : string)
    (privatekey : EllipticCurvePrivateKey) (b : bool) :
  validate_getpidtest_result ciphertext nonce authTag
    (EllipticCurvePublicKey numbers) plaintext privatekey = Returns b ↔
  ∃ curve msg text,
    registry_get_curve (curve_name numbers) = Returns curve ∧
    decrypt_ECC ciphertext nonce authTag
      (ec_Point curve (x numbers) (y numbers)) (private_value privatekey) = Returns msg ∧
    bytes_decode msg = Returns text ∧
    (if b then text = plaintext else text ≠ plaintext).
Proof.
  split.
  - unfold validate_getpidtest_result. simpl.
    destruct (registry_get_curve (curve_name numbers)) as [curve|] eqn:Hc; [|done].
    simpl.
    destruct (decrypt_ECC _ _ _ _ _) as [msg|] eqn:Hd; [|done]. simpl.
    destruct (bytes_decode msg) as [text|] eqn:Ht; [|done]. simpl.
    intros [= Hb]. exists curve, msg, text. repeat split; try done.
    destruct b.
    + by apply bool_decide_eq_true_1 in Hb.
    + by apply bool_decide_eq_false_1 in Hb.
  - intros (curve & msg & text & Hc & Hd & Ht & Hb).
    rewrite (validate_getpidtest_result_decrypted _ _ _ _ _ _ _ _ _ Hc Hd Ht).
    destruct b.
    + by rewrite bool_decide_eq_true_2.
    + by rewrite bool_decide_eq_false_2.
Qed.

(** C1.  [validate_getpidtest_result] has no handler around [decrypt_ECC]:
    when the decryption raises, as it does when the tag does not verify or
    the key is not the recipient's, the exception is the outcome of the
    verifier, which returns no boolean. *)
Theorem validate_getpidtest_result_decryption_raises
    (ciphertext nonce authTag : bytes) (numbers : EllipticCurvePublicNumbers)
    (plaintext : string) (privatekey : EllipticCurvePrivateKey)
    (curve : Curve) (e : exn) :
  registry_get_curve (curve_name numbers) = Returns curve →
  decrypt_ECC ciphertext nonce authTag
    (ec_Point curve (x numbers) (y numbers)) (private_value privatekey) = Raises e →
  validate_getpidtest_result ciphertext nonce authTag
    (EllipticCurvePublicKey numbers) plaintext privatekey = Raises e.
Proof.
  intros Hcurve Hdec. unfold validate_getpidtest_result. simpl.
  rewrite Hcurve. simpl. by rewrite Hdec.
Qed.

End LeafProperties.

(** ** Running statements *)

Section Properties.
Context `{!Libraries, !Config}.

Lemma bind_run {R A B} (m : Stmt R A) (f : A → Stmt R B) (st : State) :
  (m ≫= f) st =
  match m st with
  | (Normal a, st') => f a st'
  | (Return r, st') => (Return r, st')
  | (Raise e, st') => (Raise e, st')
  end.
Proof. reflexivity. Qed.

Lemma missing_of_pair (args : Args) (mandlist l : list string) (b : bool)
    (m v : string) :
  validate_mandatory_args args mandlist = (b, l) →
  args !! m = Some v →
  bool_decide (m ∈ l) = false.
Proof.
  intros Hv Hm. pose proof (present_not_missing args mandlist m v Hm) as Hn.
  by rewrite Hv in Hn.
Qed.

(** C9.  [validate_params_showpid_or_mdl] lets two exceptions escape: when
    every mandatory field and [error] are present and [int(args['error'])]
    raises, that exception is the outcome; when the integer is not zero and
    [error_str] is absent, the [BadRequestKeyError] of [args['error_str']] is.  In both
    cases no validation outcome is returned and the state is as before. *)
Theorem showpid_or_mdl_raises (args : Args) (mandlist : list string) (st : State) :
  (∀ (v : string) (e : exn),
     Forall (λ m, is_Some (args !! m)) mandlist →
     args !! "error" = Some v →
     py_int v = Raises e →
     validate_params_showpid_or_mdl args mandlist st = (Raises e, st)) ∧
  (∀ (v : string) (n : Z),
     Forall (λ m, is_Some (args !! m)) mandlist →
     args !! "error" = Some v →
     py_int v = Returns n → n ≠ 0 →
     args !! "error_str" = None →
     validate_params_showpid_or_mdl args mandlist st =
       (Raises (Exn BadRequestKeyError "error_str"), st)).
Proof.
  split.
  - intros v e Hall Herr Hint.
    pose proof (all_present_valid _ _ Hall) as Hv.
    pose proof (missing_of_pair _ _ _ _ _ _ Hv Herr) as Hl.
    unfold validate_params_showpid_or_mdl, showpid_or_mdl_body.
    rewrite Hv. cbn [negb orb].
    run_with ltac:(rewrite ?Hl, ?Herr, ?Hint). done.
  - intros v n Hall Herr Hint Hn Hstr.
    pose proof (all_present_valid _ _ Hall) as Hv.
    pose proof (missing_of_pair _ _ _ _ _ _ Hv Herr) as Hl.
    apply Z.eqb_neq in Hn.
    unfold validate_params_showpid_or_mdl, showpid_or_mdl_body.
    rewrite Hv. cbn [negb orb].
    run_with ltac:(rewrite ?Hl, ?Herr, ?Hint, ?Hn, ?Hstr). done.
Qed.


(** C5.  The call of [urlparse] on line 152 is outside any handler: for a
    request that carries a device public key and a return URL that
    [validators.url] rejects and on which [urlparse] raises, as it does on a
    text without scheme whose network location opens a bracket, the
    exception is the outcome, and no answer with status 400 is returned.  By
    then the key and the return URL are recorded in the session. *)
Theorem getpid_or_mdl_returnURL_urlparse_raises (args : Args)
    (mandlist : list string) (st : State) (key returnURL : string) (e : exn) :
  args !! "device_publickey" = Some key →
  args !! "returnURL" = Some returnURL →
  validators_url returnURL = false →
  urlparse returnURL = Raises e →
  validate_params_getpid_or_mdl args mandlist st =
    (Raises e, recorded st key returnURL []).
Proof.
  intros Hkey Hurl Hv Hparse.
  destruct st as [sess log].
  unfold validate_params_getpid_or_mdl, getpid_or_mdl_body, recorded.
  destruct (validate_mandatory_args args mandlist) as [b l] eqn:Hm.
  pose proof (missing_of_pair _ _ _ _ _ _ Hm Hkey) as Hk.
  pose proof (missing_of_pair _ _ _ _ _ _ Hm Hurl) as Hr.
  unfold checks_before_public_key.
  run_with ltac:(rewrite ?Hk, ?Hr, ?Hkey, ?Hurl, ?Hv, ?Hparse).
  simpl. by rewrite app_nil_r.
Qed.

(** C4.  A request that carries a device public key, an accepted return URL
    and a country outside the supported ones is answered with the redirect
    to its return URL with error 102, whether or not other mandatory fields
    are missing; and the redirect with error 101 is only returned when the
    test on the country did not fire: [country] is in the missing list, or
    it is a supported country. *)
Theorem getpid_or_mdl_country_before_missing (args : Args) (mandlist : list string)
    (st : State) :
  (∀ key returnURL country route version msg : string,
     args !! "device_publickey" = Some key →
     args !! "returnURL" = Some returnURL →
     returnURL_accepted returnURL →
     args !! "country" = Some country →
     country ∉ dom supported_countries →
     session st !! "route" = Some route →
     session st !! "version" = Some version →
     error_list !! "102" = Some msg →
     validate_params_getpid_or_mdl args mandlist st =
       (Returns (RedirectDirective version returnURL 102 []),
        recorded st key returnURL [warning route key msg])) ∧
  (∀ (version returnURL : string) (extra : list (string * string)) (st' : State),
     validate_params_getpid_or_mdl args mandlist st =
       (Returns (RedirectDirective version returnURL 101 extra), st') →
     "country" ∈ (validate_mandatory_args args mandlist).2 ∨
     ∃ country, args !! "country" = Some country ∧
                country ∈ dom supported_countries).
Proof.
  split.
  - intros key returnURL country route version msg
      Hkey Hurl Hacc Hcountry Hout Hroute Hversion Hmsg.
    apply (bool_decide_eq_false_2 _) in Hout.
    destruct st as [sess log]. simpl in Hroute, Hversion.
    unfold validate_params_getpid_or_mdl, getpid_or_mdl_body, recorded, warning.
    destruct (validate_mandatory_args args mandlist) as [b l] eqn:Hm.
    pose proof (missing_of_pair _ _ _ _ _ _ Hm Hkey) as Hk.
    pose proof (missing_of_pair _ _ _ _ _ _ Hm Hurl) as Hr.
    pose proof (missing_of_pair _ _ _ _ _ _ Hm Hcountry) as Hc.
    unfold checks_before_public_key.
    destruct (validators_url returnURL) eqn:Hv.
    + run_with ltac:(rewrite ?Hk, ?Hr, ?Hc, ?Hkey, ?Hurl, ?Hcountry, ?Hv, ?Hout,
                             ?Hroute, ?Hversion, ?Hmsg).
      done.
    + destruct Hacc as [Hacc|(urlval & Hparse & Hscheme)]; [congruence |].
      apply (bool_decide_eq_false_2 _) in Hscheme.
      run_with ltac:(rewrite ?Hk, ?Hr, ?Hc, ?Hkey, ?Hurl, ?Hcountry, ?Hv, ?Hout,
                             ?Hparse, ?Hscheme, ?Hroute, ?Hversion, ?Hmsg).
      done.
  - intros version returnURL extra st'.
    unfold validate_params_getpid_or_mdl, getpid_or_mdl_body.
    destruct (validate_mandatory_args args mandlist) as [b l]. simpl.
    unfold checks_before_public_key, public_key_format_check.
    destruct (decide ("country" ∈ l)) as [Hin|Hout]; [by left |].
    apply (bool_decide_eq_false_2 _) in Hout.
    destruct (args !! "country") as [country|] eqn:Hc.
    + destruct (decide (country ∈ dom supported_countries)) as [Hs|Hn]; [eauto |].
      apply (bool_decide_eq_false_2 _) in Hn.
      unfold_stmt. rewrite Hout, Hc, Hn. intros Hrun. all_runs.
    + unfold_stmt. rewrite Hout, Hc. intros Hrun. all_runs.
Qed.

(** C8.  A request that passes every check before the one on the
    certificate policy, and whose decoded certificate [validate_cert_algo]
    rejects with the pair [(algo, curve)], is answered with the redirect to
    its return URL with error 104 and the detail
    ["Certificate algorithm (algo) or curve (curve) not supported."]. *)
Theorem getpid_or_mdl_certificate_rejected (args : Args) (mandlist : list string)
    (st : State) (key returnURL country encoded route version msg algo curve : string)
    (certificate : bytes) :
  Forall (λ m, is_Some (args !! m)) mandlist →
  args !! "device_publickey" = Some key →
  args !! "returnURL" = Some returnURL →
  returnURL_accepted returnURL →
  args !! "country" = Some country →
  country ∈ dom supported_countries →
  args !! "certificate" = Some encoded →
  urlsafe_b64decode_str encoded = Returns certificate →
  validate_cert_algo certificate cert_algo_list = Returns (false, algo, curve) →
  session st !! "route" = Some route →
  session st !! "version" = Some version →
  error_list !! "104" = Some msg →
  validate_params_getpid_or_mdl args mandlist st =
    (Returns (RedirectDirective version returnURL 104
       [("error_str", "Certificate algorithm (" +:+ algo +:+ ") or curve ("
                      +:+ curve +:+ ") not supported.")]),
     recorded st key returnURL [warning route key msg]).
Proof.
  intros Hall Hkey Hurl Hacc Hcountry Hin Hcert Hdec Halgo Hroute Hversion Hmsg.
  apply (bool_decide_eq_true_2 _) in Hin.
  destruct st as [sess log]. simpl in Hroute, Hversion.
  unfold validate_params_getpid_or_mdl, getpid_or_mdl_body, recorded, warning.
  pose proof (all_present_valid _ _ Hall) as Hm. rewrite Hm.
  pose proof (missing_of_pair _ _ _ _ _ _ Hm Hkey) as Hk.
  pose proof (missing_of_pair _ _ _ _ _ _ Hm Hurl) as Hr.
  pose proof (missing_of_pair _ _ _ _ _ _ Hm Hcountry) as Hc.
  unfold checks_before_public_key.
  destruct (validators_url returnURL) eqn:Hv.
  - run_with ltac:(rewrite ?Hk, ?Hr, ?Hc, ?Hkey, ?Hurl, ?Hcountry, ?Hv, ?Hin, ?Hcert, ?Hdec,
                           ?Halgo, ?Hroute, ?Hversion, ?Hmsg).
    done.
  - destruct Hacc as [Hacc|(urlval & Hparse & Hscheme)]; [congruence |].
    apply (bool_decide_eq_false_2 _) in Hscheme.
    run_with ltac:(rewrite ?Hk, ?Hr, ?Hc, ?Hkey, ?Hurl, ?Hcountry, ?Hv, ?Hin, ?Hcert, ?Hdec,
                           ?Halgo, ?Hparse, ?Hscheme, ?Hroute, ?Hversion, ?Hmsg).
    done.
Qed.

(** C10.  When the checks of lines 136 to 176 let control through to line
    177, [device_publickey] is not in the missing list: the guard of line
    177 holds, and the function goes on exactly as the check of the PEM
    format followed by [return True]. *)
Theorem getpid_or_mdl_public_key_guard (args : Args) (mandlist : list string)
    (st st' : State) :
  checks_before_public_key args (validate_mandatory_args args mandlist).1
    (validate_mandatory_args args mandlist).2 st = (Normal (), st') →
  ("device_publickey" ∉ (validate_mandatory_args args mandlist).2) ∧
  validate_params_getpid_or_mdl args mandlist st =
    call (public_key_format_check args;; return_ Valid) st'.
Proof.
  unfold validate_params_getpid_or_mdl, getpid_or_mdl_body.
  destruct (validate_mandatory_args args mandlist) as [b l]. simpl.
  intros Hrun.
  assert ("device_publickey" ∉ l) as Hout.
  { intros Hin. apply (bool_decide_eq_true_2 _) in Hin. revert Hrun.
    unfold checks_before_public_key. unfold_stmt. rewrite Hin.
    intros Hrun. all_runs. }
  split; [done |].
  apply (bool_decide_eq_false_2 _) in Hout.
  unfold call. rewrite !bind_run. rewrite Hrun. rewrite Hout. done.
Qed.

End Properties.

(** * Further properties *)

(** ** validate_mandatory_args *)

(** X3.  Checking a list made of two parts amounts to checking the parts:
    the flags are conjoined and the missing lists concatenated. *)
Theorem validate_mandatory_args_app (args : Args) (first second : list string) :
  validate_mandatory_args args (first ++ second) =
  ((validate_mandatory_args args first).1 && (validate_mandatory_args args second).1,
   (validate_mandatory_args args first).2 ++ (validate_mandatory_args args second).2).
Proof.
  rewrite !validate_mandatory_args_eq. simpl.
  by rewrite forallb_app, filter_app.
Qed.

(** X4.  The two components of the result agree: the flag is [True] exactly
    when the missing list is empty; the missing list is a sublist of
    [mandlist], none of its names has a value, and checking it again
    reproduces the result. *)
Theorem validate_mandatory_args_consistent (args : Args) (mandlist : list string) :
  let result := validate_mandatory_args args mandlist in
  (result.1 = true ↔ result.2 = []) ∧
  sublist result.2 mandlist ∧
  Forall (λ m, args !! m = None) result.2 ∧
  validate_mandatory_args args result.2 = result.
Proof.
  simpl. rewrite !validate_mandatory_args_eq. simpl. repeat split.
  - intros Hb. apply filter_absent_nil. by apply all_present_forallb.
  - intros Hl. apply all_present_forallb. by apply filter_absent_nil.
  - apply sublist_filter.
  - apply Forall_forall. intros m Hm. by apply list_elem_of_filter in Hm as [? _].
  - induction mandlist as [|m ms IH]; [done |].
    rewrite filter_cons. destruct (args !! m) as [v|] eqn:Hm.
    + rewrite decide_False by done. simpl. rewrite Hm.
      rewrite bool_decide_eq_true_2 by eauto. done.
    + rewrite decide_True by done. simpl. rewrite Hm, filter_cons.
      rewrite decide_True by done.
      rewrite bool_decide_eq_false_2 by (by intros [? ?]). simpl.
      injection IH as _ IH2. by rewrite IH2.
Qed.

(** X5.  A request that carries more arguments misses fewer names: its
    missing list is a sublist of the one of the smaller request, and it
    passes whenever the smaller one does. *)
Theorem validate_mandatory_args_mono (args args' : Args) (mandlist : list string) :
  args ⊆ args' →
  sublist (validate_mandatory_args args' mandlist).2
          (validate_mandatory_args args mandlist).2 ∧
  ((validate_mandatory_args args mandlist).1 = true →
   (validate_mandatory_args args' mandlist).1 = true).
Proof.
  intros Hsub. rewrite !validate_mandatory_args_eq. simpl. split.
  - induction mandlist as [|m ms IH]; [done |].
    rewrite !filter_cons. destruct (args !! m) as [v|] eqn:Hm.
    + rewrite (lookup_weaken _ _ _ _ Hm Hsub).
      by rewrite !decide_False by done.
    + rewrite (decide_True (P := None = None)) by done.
      destruct (decide (args' !! m = None)).
      * by apply sublist_skip.
      * by apply sublist_cons.
  - rewrite !all_present_forallb. intros Hall.
    eapply Forall_impl; [exact Hall |].
    intros m [v Hm]. exists v. by apply (lookup_weaken _ _ _ _ Hm Hsub).
Qed.

Section MoreLeafProperties.
Context `{!Libraries}.

(** X6.  [validate_cert_algo] raises exactly when the certificate parses and
    the extraction of its public key, or the read of the curve of that key,
    raises: the allow-list plays no part in it. *)
Theorem validate_cert_algo_raises (certificate : bytes) (lalgo : AllowList) (e : exn) :
  validate_cert_algo certificate lalgo = Raises e ↔
  ∃ cert, load_pem_x509_certificate certificate = Returns cert ∧
    (public_key cert = Raises e ∨
     ∃ key, public_key cert = Returns key ∧ key_curve_name key = Raises e).
Proof.
  unfold validate_cert_algo.
  destruct (load_pem_x509_certificate certificate) as [cert|e0]; simpl.
  - destruct (public_key cert) as [key|e1] eqn:Hkey; simpl.
    + destruct (key_curve_name key) as [curvname|e2] eqn:Hcurve; simpl.
      * split.
        -- destruct (lalgo !! _); [destruct (negb _) |]; done.
        -- intros (cert' & [= <-] & [Hk|(key' & Hk & Hc)]); congruence.
      * split.
        -- intros [= ->]. exists cert. eauto.
        -- intros (cert' & [= <-] & [Hk|(key' & Hk & Hc)]); congruence.
    + split.
      * intros [= ->]. exists cert. eauto.
      * intros (cert' & [= <-] & [Hk|(key' & Hk & Hc)]); congruence.
  - split; [done |]. by intros (cert & ? & _).
Qed.

(** X7.  [validate_getpidtest_result] raises exactly the first exception met
    on its way: the one of reading the curve of a key that is not on an
    elliptic curve, else the one of [registry.get_curve], else the one of
    [decrypt_ECC], else the one of decoding the decrypted bytes. *)
Theorem validate_getpidtest_result_raises (ciphertext nonce authTag : bytes)
    (ciphertextPubKey : PublicKey) (plaintext : string)
    (privatekey : EllipticCurvePrivateKey) (e : exn) :
  validate_getpidtest_result ciphertext nonce authTag ciphertextPubKey
    plaintext privatekey = Raises e ↔
  ec_public_numbers ciphertextPubKey = Raises e ∨
  ∃ numbers, ec_public_numbers ciphertextPubKey = Returns numbers ∧
    (registry_get_curve (curve_name numbers) = Raises e ∨
     ∃ curve, registry_get_curve (curve_name numbers) = Returns curve ∧
       (decrypt_ECC ciphertext nonce authTag
          (ec_Point curve (x numbers) (y numbers)) (private_value privatekey) = Raises e ∨
        ∃ msg, decrypt_ECC ciphertext nonce authTag
                 (ec_Point curve (x numbers) (y numbers)) (private_value privatekey)
               = Returns msg ∧
               bytes_decode msg = Raises e)).
Proof.
  unfold validate_getpidtest_result.
  destruct (ec_public_numbers ciphertextPubKey) as [numbers|e0]; simpl.
  2:{ split; [intros [= ->]; by left |].
      intros [?|(? & ? & _)]; by simplify_eq. }
  destruct (registry_get_curve (curve_name numbers)) as [curve|e1] eqn:Hc; simpl.
  2:{ split; [intros [= ->]; right; eexists; split; [first [eassumption | reflexivity] |]; by left |].
      intros [?|(? & ? & [?|(? & ? & _)])]; simplify_eq; congruence. }
  destruct (decrypt_ECC _ _ _ _ _) as [msg|e2] eqn:Hd; simpl.
  2:{ split; [intros [= ->]; right; eexists; split; [first [eassumption | reflexivity] |]; right; eexists;
               split; [first [eassumption | reflexivity] |]; by left |].
      intros [?|(? & ? & [?|(? & ? & [?|(? & ? & _)])])]; simplify_eq;
        congruence. }
  destruct (bytes_decode msg) as [text|e3] eqn:Ht; simpl.
  - split; [done |].
    intros [?|(? & ? & [?|(? & ? & [?|(? & ? & ?)])])]; simplify_eq; congruence.
  - split; [intros [= ->]; right; eexists; split; [first [eassumption | reflexivity] |]; right; eexists;
             split; [first [eassumption | reflexivity] |]; right; eexists; by split |].
    intros [?|(? & ? & [?|(? & ? & [?|(? & ? & ?)])])]; simplify_eq; congruence.
Qed.

End MoreLeafProperties.

(** ** validate_params_getpid_or_mdl, path by path *)

Section MoreOrchestratorProperties.
Context `{!Libraries, !Config}.

Lemma returnURL_accepted_cases (returnURL : string) :
  returnURL_accepted returnURL →
  validators_url returnURL = true ∨
  validators_url returnURL = false ∧
  ∃ urlval, urlparse returnURL = Returns urlval ∧
            bool_decide (scheme urlval = "") = false.
Proof.
  intros [Hv|(urlval & Hparse & Hscheme)]; [by left |].
  destruct (validators_url returnURL); [by left | right].
  split; [done |]. exists urlval. split; [done |].
  by apply bool_decide_eq_false_2.
Qed.

Lemma listed_missing (args : Args) (mandlist l : list string) (b : bool) (m : string) :
  validate_mandatory_args args mandlist = (b, l) →
  m ∈ mandlist → args !! m = None →
  bool_decide (m ∈ l) = true.
Proof.
  intros Hv Hin Hm. apply bool_decide_eq_true_2.
  pose proof (proj2 (missing_elem args mandlist m) (conj Hin Hm)) as Hl.
  by rewrite Hv in Hl.
Qed.

Lemma unlisted_not_missing (args : Args) (mandlist l : list string) (b : bool)
    (m : string) :
  validate_mandatory_args args mandlist = (b, l) →
  m ∉ mandlist →
  bool_decide (m ∈ l) = false.
Proof.
  intros Hv Hout. apply bool_decide_eq_false_2. intros Hl.
  pose proof (proj1 (missing_elem args mandlist m)) as Hm.
  rewrite Hv in Hm. by destruct (Hm Hl).
Qed.

(** X8.  A request without [device_publickey]: when the name is mandatory the
    answer is the local one with status 400 and error 15, with the session
    untouched and one warning logged; when it is not, the
    [BadRequestKeyError] of [args['device_publickey']] escapes. *)
Theorem getpid_or_mdl_no_device_publickey (args : Args) (mandlist : list string)
    (st : State) :
  args !! "device_publickey" = None →
  (∀ route msg : string,
     "device_publickey" ∈ mandlist →
     session st !! "route" = Some route →
     error_list !! "15" = Some msg →
     validate_params_getpid_or_mdl args mandlist st =
       (Returns (LocalError ("Error 15: " +:+ msg +:+ LF) HTTP_400_BAD_REQUEST),
        logged st [route_warning route msg])) ∧
  ("device_publickey" ∉ mandlist →
     validate_params_getpid_or_mdl args mandlist st =
       (Raises (Exn BadRequestKeyError "device_publickey"), st)).
Proof.
  intros Hkey. destruct st as [sess log].
  unfold validate_params_getpid_or_mdl, getpid_or_mdl_body, logged, route_warning.
  destruct (validate_mandatory_args args mandlist) as [b l] eqn:Hm.
  unfold checks_before_public_key. split.
  - intros route msg Hin Hroute Hmsg. simpl in Hroute.
    pose proof (listed_missing _ _ _ _ _ Hm Hin Hkey) as Hl.
    run. done.
  - intros Hout. pose proof (unlisted_not_missing _ _ _ _ _ Hm Hout) as Hl.
    run. done.
Qed.

(** X9.  A request with a device public key and without [returnURL]: when
    the name is mandatory the answer is the local one with status 400 and
    error 11; when it is not, the [BadRequestKeyError] of [args['returnURL']]
    escapes.  In both cases the device public key is already recorded in the
    session. *)
Theorem getpid_or_mdl_no_returnURL (args : Args) (mandlist : list string)
    (st : State) (key : string) :
  args !! "device_publickey" = Some key →
  args !! "returnURL" = None →
  (∀ route msg : string,
     "returnURL" ∈ mandlist →
     session st !! "route" = Some route →
     error_list !! "11" = Some msg →
     validate_params_getpid_or_mdl args mandlist st =
       (Returns (LocalError ("Error 11: " +:+ msg +:+ LF) HTTP_400_BAD_REQUEST),
        key_recorded st key [warning route key msg])) ∧
  ("returnURL" ∉ mandlist →
     validate_params_getpid_or_mdl args mandlist st =
       (Raises (Exn BadRequestKeyError "returnURL"), key_recorded st key [])).
Proof.
  intros Hkey Hurl. destruct st as [sess log].
  unfold validate_params_getpid_or_mdl, getpid_or_mdl_body, key_recorded, warning.
  destruct (validate_mandatory_args args mandlist) as [b l] eqn:Hm.
  pose proof (missing_of_pair _ _ _ _ _ _ Hm Hkey) as Hk.
  unfold checks_before_public_key. split.
  - intros route msg Hin Hroute Hmsg. simpl in Hroute.
    pose proof (listed_missing _ _ _ _ _ Hm Hin Hurl) as Hl.
    run. done.
  - intros Hout. pose proof (unlisted_not_missing _ _ _ _ _ Hm Hout) as Hl.
    run. simpl. by rewrite app_nil_r.
Qed.


(** Unpacks the conditions of the vocabulary into equations the run can
    rewrite with. *)
Ltac unpack_reaches :=
  repeat match goal with
         | H : reaches_public_key _ _ _ _ |- _ =>
             destruct H as (H & ? & ? & ? & ? & ? & ? & ?)
         | H : reaches_certificate _ _ _ _ |- _ =>
             let Hin := fresh "Hin" in
             destruct H as (H & ? & ? & ? & Hin);
             apply (bool_decide_eq_true_2 _) in Hin
         | H : reaches_country _ _ _ |- _ =>
             let Hacc := fresh "Hacc" in
             destruct H as (? & ? & Hacc);
             apply returnURL_accepted_cases in Hacc;
             destruct Hacc as [?|(? & ? & ? & ?)]
         end.

(** Starts the run of [validate_params_getpid_or_mdl] on a request whose
    device public key, return URL and country have values. *)
Ltac start_run :=
  unfold validate_params_getpid_or_mdl, getpid_or_mdl_body, recorded,
         key_recorded, logged, warning, route_warning;
  match goal with
  | |- context [validate_mandatory_args ?args ?mandlist] =>
      let Hm := fresh "Hm" in
      destruct (validate_mandatory_args args mandlist) as [b l] eqn:Hm;
      repeat match goal with
             | H : args !! ?k = Some _ |- _ =>
                 lazymatch goal with
                 | _ : bool_decide (k ∈ l) = false |- _ => fail
                 | _ => pose proof (missing_of_pair _ _ _ _ _ _ Hm H)
                 end
             end
  end;
  unfold checks_before_public_key, public_key_format_check.

(** X10.  A request that gets past the check of its return URL, whose
    country is mandatory and missing, or present and supported, and that
    lacks some mandatory name, is answered with the redirect to its return
    URL with error 101. *)
Theorem getpid_or_mdl_missing_fields (args : Args) (mandlist : list string)
    (st : State) (key returnURL route version msg : string) :
  reaches_country args key returnURL →
  (args !! "country" = None ∧ "country" ∈ mandlist ∨
   ∃ country, args !! "country" = Some country ∧
              country ∈ dom supported_countries) →
  ¬ Forall (λ m, is_Some (args !! m)) mandlist →
  session st !! "route" = Some route →
  session st !! "version" = Some version →
  error_list !! "101" = Some msg →
  validate_params_getpid_or_mdl args mandlist st =
    (Returns (RedirectDirective version returnURL 101 []),
     recorded st key returnURL [warning route key msg]).
Proof.
  intros Hreach Hcountry Hmissing Hroute Hversion Hmsg.
  destruct st as [sess log]. simpl in Hroute, Hversion.
  assert ((validate_mandatory_args args mandlist).1 = false) as Hb.
  { rewrite validate_mandatory_args_eq. simpl.
    apply not_true_is_false. by rewrite all_present_forallb. }
  destruct Hcountry as [[Hnone Hlisted]|(country & Hsome & Hin)].
  - unpack_reaches; start_run; simpl in Hb; subst b;
      pose proof (listed_missing _ _ _ _ _ Hm Hlisted Hnone);
      run; done.
  - apply (bool_decide_eq_true_2 _) in Hin.
    unpack_reaches; start_run; simpl in Hb; subst b; run; done.
Qed.

(** X11.  A request that gets to the decoding of its certificate, and whose
    certificate is absent or does not decode, is answered with the redirect
    to its return URL with error 103 and [str(e)] of the exception: the read
    of [args['certificate']] is inside the [try], and for an absent
    certificate [str(e)] is the text of the HTTP error 400. *)
Theorem getpid_or_mdl_certificate_not_decoded (args : Args) (mandlist : list string)
    (st : State) (key returnURL route version msg : string) (e : exn) :
  reaches_certificate args mandlist key returnURL →
  (args_getitem args "certificate" ≫= urlsafe_b64decode_str) = Raises e →
  session st !! "route" = Some route →
  session st !! "version" = Some version →
  error_list !! "103" = Some msg →
  validate_params_getpid_or_mdl args mandlist st =
    (Returns (RedirectDirective version returnURL 103
       [("error_str", "Certificate not correctly encoded - " +:+ str_exn e)]),
     recorded st key returnURL [warning route key msg]).
Proof.
  intros Hreach Hdec Hroute Hversion Hmsg.
  destruct st as [sess log]. simpl in Hroute, Hversion.
  pose proof Hreach as (_ & Hall & _).
  pose proof (all_present_valid _ _ Hall) as Hv.
  unfold args_getitem in Hdec.
  destruct (args !! "certificate") as [encoded|] eqn:Hcert; simpl in Hdec.
  - unpack_reaches; start_run; simplify_eq; run; done.
  - injection Hdec as <-.
    unpack_reaches; start_run; simplify_eq; run; done.
Qed.

(** X12.  A request that gets to the check of its device public key, and
    whose key decodes to bytes that are no PEM public key, gets the local
    answer with status 400 and error 16. *)
Theorem getpid_or_mdl_public_key_not_pem (args : Args) (mandlist : list string)
    (st : State) (key returnURL route msg : string) (device_pub : bytes) :
  reaches_public_key args mandlist key returnURL →
  urlsafe_b64decode (str_encode key) = Returns device_pub →
  is_valid_pem_public_key device_pub = Returns false →
  session st !! "route" = Some route →
  error_list !! "16" = Some msg →
  validate_params_getpid_or_mdl args mandlist st =
    (Returns (LocalError ("Error 16: " +:+ msg +:+ LF) HTTP_400_BAD_REQUEST),
     recorded st key returnURL [route_warning route msg]).
Proof.
  intros Hreach Hdec Hpem Hroute Hmsg.
  destruct st as [sess log]. simpl in Hroute.
  pose proof Hreach as ((_ & Hall & _) & _).
  pose proof (all_present_valid _ _ Hall) as Hv.
  unpack_reaches; start_run; simplify_eq; run; done.
Qed.


(** X13.  The exceptions of four calls made outside any handler escape
    [validate_params_getpid_or_mdl]: the one of [urlparse] on a return URL
    that [validators.url] rejects, the [BadRequestKeyError] of
    [args['country']] when [country] is neither mandatory nor given, the one
    of [validate_cert_algo], and the one of decoding the device public key.
    By then the device public key and the return URL are recorded in the
    session, and nothing is logged. *)
Theorem getpid_or_mdl_escaping_exceptions (args : Args) (mandlist : list string)
    (st : State) (key returnURL : string) (e : exn) :
  (args !! "device_publickey" = Some key →
   args !! "returnURL" = Some returnURL →
   validators_url returnURL = false →
   urlparse returnURL = Raises e →
   validate_params_getpid_or_mdl args mandlist st =
     (Raises e, recorded st key returnURL [])) ∧
  (reaches_country args key returnURL →
   "country" ∉ mandlist → args !! "country" = None →
   validate_params_getpid_or_mdl args mandlist st =
     (Raises (Exn BadRequestKeyError "country"), recorded st key returnURL [])) ∧
  (∀ (encoded : string) (certificate : bytes),
     reaches_certificate args mandlist key returnURL →
     args !! "certificate" = Some encoded →
     urlsafe_b64decode_str encoded = Returns certificate →
     validate_cert_algo certificate cert_algo_list = Raises e →
     validate_params_getpid_or_mdl args mandlist st =
       (Raises e, recorded st key returnURL [])) ∧
  (reaches_public_key args mandlist key returnURL →
   urlsafe_b64decode (str_encode key) = Raises e →
   validate_params_getpid_or_mdl args mandlist st =
     (Raises e, recorded st key returnURL [])).
Proof.
  destruct st as [sess log]. repeat split.
  - intros Hkey Hurl Hv Hparse.
    start_run; run; simpl; by rewrite app_nil_r.
  - intros Hreach Hout Hnone.
    unpack_reaches; start_run;
      pose proof (unlisted_not_missing _ _ _ _ _ Hm Hout);
      run; simpl; by rewrite app_nil_r.
  - intros encoded certificate Hreach Hcert Hdec Halgo.
    pose proof Hreach as (_ & Hall & _).
    pose proof (all_present_valid _ _ Hall) as Hv.
    unpack_reaches; start_run; simplify_eq; run; simpl; by rewrite app_nil_r.
  - intros Hreach Hdec.
    pose proof Hreach as ((_ & Hall & _) & _).
    pose proof (all_present_valid _ _ Hall) as Hv.
    unpack_reaches; start_run; simplify_eq; run; simpl; by rewrite app_nil_r.
Qed.

(** What a call that returns [True] has checked and done. *)
Lemma getpid_or_mdl_valid_inv (args : Args) (mandlist : list string) (st st' : State) :
  validate_params_getpid_or_mdl args mandlist st = (Returns Valid, st') →
  ∃ key returnURL device_pub,
    reaches_public_key args mandlist key returnURL ∧
    urlsafe_b64decode (str_encode key) = Returns device_pub ∧
    is_valid_pem_public_key device_pub = Returns true ∧
    st' = recorded st key returnURL [].
Proof.
  destruct st as [sess log].
  unfold validate_params_getpid_or_mdl, getpid_or_mdl_body.
  pose proof (validate_mandatory_args_eq args mandlist) as Heq.
  destruct (validate_mandatory_args args mandlist) as [b l] eqn:Hm.
  unfold checks_before_public_key, public_key_format_check.
  unfold_stmt. intros Hrun. cbv beta iota zeta in Hrun. split_runs.
  all: match goal with
       | Hf : forallb _ _ = true |- _ => apply all_present_forallb in Hf
       end.
  all: match goal with
       | Hv : is_valid_pem_public_key _ = Returns ?a,
         Hb : bool_decide (?a = false) = false |- _ =>
           destruct a; [| by apply bool_decide_eq_false_1 in Hb]
       end.
  all: repeat match goal with
       | Hd : bool_decide _ = true |- _ => apply bool_decide_eq_true_1 in Hd
       | Hd : bool_decide _ = false |- _ => apply bool_decide_eq_false_1 in Hd
       end.
  all: try match goal with
       | Hin : _ ∈ filter _ _, Hf : Forall _ _ |- _ =>
           apply list_elem_of_filter in Hin as [Hnone Hin];
           rewrite Forall_forall in Hf;
           destruct (Hf _ Hin) as [? ?]; congruence
       end.
  all: do 3 eexists; split; [| split; [eassumption | split; [eassumption |]]].
  all: try (unfold recorded; simpl; by rewrite app_nil_r).
  all: split; [| do 4 eexists; repeat split; eassumption].
  all: split; [| split; [done | eexists; split; eassumption]].
  all: split; [eassumption | split; [eassumption |]].
  all: first [ by left | right; eexists; split; eassumption ].
Qed.

(** X14.  [validate_params_getpid_or_mdl] returns [True] exactly for a
    request that has a value for every mandatory name, a device public key,
    an accepted return URL, a supported country, a certificate that decodes
    and that [validate_cert_algo] accepts, and a device public key that
    decodes to a PEM public key; it then records the key and the return URL
    in the session and logs nothing. *)
Theorem getpid_or_mdl_valid (args : Args) (mandlist : list string) (st st' : State) :
  validate_params_getpid_or_mdl args mandlist st = (Returns Valid, st') ↔
  ∃ key returnURL device_pub,
    reaches_public_key args mandlist key returnURL ∧
    urlsafe_b64decode (str_encode key) = Returns device_pub ∧
    is_valid_pem_public_key device_pub = Returns true ∧
    st' = recorded st key returnURL [].
Proof.
  split; [apply getpid_or_mdl_valid_inv |].
  destruct st as [sess log].
  intros (key & returnURL & device_pub & Hreach & Hdec & Hpem & ->).
  pose proof Hreach as ((_ & Hall & _) & _).
  pose proof (all_present_valid _ _ Hall) as Hv.
  unpack_reaches; start_run; simplify_eq; run; simpl; by rewrite app_nil_r.
Qed.

End MoreOrchestratorProperties.

Section OrchestratorInvariants.
Context `{!Libraries, !Config}.

(** X15.  Whatever its outcome, a call of [validate_params_getpid_or_mdl]
    writes nothing to the session but the device public key and the return
    URL of the request, in that order, and logs at most one warning: none
    when it returns [True], exactly one when it returns an error or a
    redirect. *)
Theorem getpid_or_mdl_effects (args : Args) (mandlist : list string)
    (st st' : State) (o : outcome Response) :
  validate_params_getpid_or_mdl args mandlist st = (o, st') →
  (session st' = session st ∨
   ∃ key, args !! "device_publickey" = Some key ∧
     (session st' = <["device_publickey" := key]> (session st) ∨
      ∃ returnURL, args !! "returnURL" = Some returnURL ∧
        session st' = <["returnURL" := returnURL]>
                        (<["device_publickey" := key]> (session st)))) ∧
  ∃ log, warnings st' = warnings st ++ log ∧
         (length log ≤ 1)%nat ∧
         (o = Returns Valid → log = []) ∧
         (∀ r, o = Returns r → r ≠ Valid → length log = 1%nat).
Proof.
  destruct st as [sess log0].
  unfold validate_params_getpid_or_mdl, getpid_or_mdl_body.
  destruct (validate_mandatory_args args mandlist) as [b l].
  unfold checks_before_public_key, public_key_format_check.
  unfold_stmt. intros Hrun. cbv beta iota zeta in Hrun. split_runs.
  all: simpl; split;
    [ first [ by left
            | right; eexists; split; [first [eassumption | reflexivity] |];
              first [ by left
                    | right; eexists;
                      split; [first [eassumption | reflexivity] | done] ] ]
    | first [ exists []; rewrite app_nil_r;
              split; [done |]; split; [simpl; lia |]; split; [done |];
              intros r [= <-] Hne; by destruct Hne
            | eexists [_]; split; [reflexivity |]; split; [simpl; lia |];
              split; [intros [=] | by intros] ] ].
Qed.

(** X16.  What [validate_params_getpid_or_mdl] returns besides [True]: a
    local answer always has status 400; a redirect always carries the
    version of the session, the return URL of the request, which passed the
    check of the return URL, and one of the errors 101 to 104, with details
    only for 103 and 104. *)
Theorem getpid_or_mdl_answers (args : Args) (mandlist : list string)
    (st st' : State) (r : Response) :
  validate_params_getpid_or_mdl args mandlist st = (Returns r, st') →
  match r with
  | Valid => True
  | LocalError body status => status = HTTP_400_BAD_REQUEST
  | RedirectDirective version returnURL error_num extra =>
      session st !! "version" = Some version ∧
      args !! "returnURL" = Some returnURL ∧
      returnURL_accepted returnURL ∧
      (error_num = 101 ∧ extra = [] ∨ error_num = 102 ∧ extra = [] ∨
       error_num = 103 ∨ error_num = 104)
  end.
Proof.
  destruct st as [sess log0].
  unfold validate_params_getpid_or_mdl, getpid_or_mdl_body.
  destruct (validate_mandatory_args args mandlist) as [b l].
  unfold checks_before_public_key, public_key_format_check.
  unfold_stmt. intros Hrun. cbv beta iota zeta in Hrun. split_runs.
  all: try done.
  all: simpl.
  all: repeat match goal with
       | Hs : <[_ := _]> _ !! "version" = _ |- _ =>
           rewrite lookup_insert_ne in Hs by done
       | Hd : bool_decide _ = false |- _ => apply bool_decide_eq_false_1 in Hd
       end.
  all: split; [eassumption |]; split; [first [eassumption | reflexivity] |];
    split;
    [ first [ by left | right; eexists; split; eassumption ]
    | first [ by left | by right; left | by right; right; left
            | by right; right; right ] ].
Qed.

End OrchestratorInvariants.

(** ** validate_params_showpid_or_mdl *)

Section ShowProperties.
Context `{!Libraries, !Config}.

(** The answer of the show variant to a request that misses a mandatory
    name. *)
Lemma showpid_or_mdl_missing_run (args : Args) (mandlist : list string)
    (st : State) (route key msg : string) :
  ¬ Forall (λ m, is_Some (args !! m)) mandlist →
  session st !! "route" = Some route →
  session st !! "device_publickey" = Some key →
  error_list !! "101" = Some msg →
  validate_params_showpid_or_mdl args mandlist st =
    (Returns (LocalError ("Error 101: " +:+ msg) HTTP_206_PARTIAL_CONTENT),
     logged st [warning route key msg]).
Proof.
  intros Hmissing Hroute Hkey Hmsg.
  destruct st as [sess log]. simpl in Hroute, Hkey.
  unfold validate_params_showpid_or_mdl, showpid_or_mdl_body, logged, warning.
  rewrite validate_mandatory_args_eq.
  assert (forallb (λ m, bool_decide (is_Some (args !! m))) mandlist = false) as ->.
  { apply not_true_is_false. by rewrite all_present_forallb. }
  cbn [negb orb]. run. done.
Qed.

(** X17.  When some mandatory name has no value, which is all the test
    [not b or 'error' in l] amounts to, [validate_params_showpid_or_mdl]
    answers with status 206 and error 101, and logs one warning that names
    the device public key of the session. *)
Theorem showpid_or_mdl_missing_fields (args : Args) (mandlist : list string)
    (st : State) (route key msg : string) :
  ¬ Forall (λ m, is_Some (args !! m)) mandlist →
  session st !! "route" = Some route →
  session st !! "device_publickey" = Some key →
  error_list !! "101" = Some msg →
  validate_params_showpid_or_mdl args mandlist st =
    (Returns (LocalError ("Error 101: " +:+ msg) HTTP_206_PARTIAL_CONTENT),
     logged st [warning route key msg]).
Proof. apply showpid_or_mdl_missing_run. Qed.

(** X18.  When every mandatory name has a value, [error] is the decimal of
    an integer other than zero and [error_str] is given, the function
    answers with status 203 and the message made of the two values, and
    changes neither the session nor the log. *)
Theorem showpid_or_mdl_error_reported (args : Args) (mandlist : list string)
    (st : State) (error error_str : string) (code : Z) :
  Forall (λ m, is_Some (args !! m)) mandlist →
  args !! "error" = Some error →
  py_int error = Returns code →
  code ≠ 0 →
  args !! "error_str" = Some error_str →
  validate_params_showpid_or_mdl args mandlist st =
    (Returns (LocalError ("Error " +:+ error +:+ ": " +:+ error_str)
                         HTTP_203_NON_AUTHORITATIVE_INFORMATION), st).
Proof.
  intros Hall Herr Hint Hcode Hstr. apply Z.eqb_neq in Hcode.
  pose proof (all_present_valid _ _ Hall) as Hv.
  pose proof (missing_of_pair _ _ _ _ _ _ Hv Herr) as Hl.
  unfold validate_params_showpid_or_mdl, showpid_or_mdl_body.
  rewrite Hv. cbn [negb orb]. run. done.
Qed.

(** X19.  [validate_params_showpid_or_mdl] returns [True] exactly when every
    mandatory name has a value and [error] is given and reads as the integer
    zero; it then leaves the session and the log as they were. *)
Theorem showpid_or_mdl_valid (args : Args) (mandlist : list string) (st st' : State) :
  validate_params_showpid_or_mdl args mandlist st = (Returns Valid, st') ↔
  Forall (λ m, is_Some (args !! m)) mandlist ∧
  (∃ error, args !! "error" = Some error ∧ py_int error = Returns 0) ∧
  st' = st.
Proof.
  split.
  - unfold validate_params_showpid_or_mdl, showpid_or_mdl_body.
    rewrite validate_mandatory_args_eq.
    destruct (forallb _ mandlist) eqn:Hall; cbn [negb orb].
    + apply all_present_forallb in Hall.
      unfold_stmt. intros Hrun. cbv beta iota zeta in Hrun. split_runs.
      match goal with
      | Hz : Z.eqb _ 0 = true |- _ => apply Z.eqb_eq in Hz; subst
      end.
      eauto.
    + unfold_stmt. intros Hrun. cbv beta iota zeta in Hrun. split_runs.
  - intros (Hall & (error & Herr & Hint) & ->).
    pose proof (all_present_valid _ _ Hall) as Hv.
    pose proof (missing_of_pair _ _ _ _ _ _ Hv Herr) as Hl.
    unfold validate_params_showpid_or_mdl, showpid_or_mdl_body.
    rewrite Hv. cbn [negb orb]. run. done.
Qed.

(** X20.  The test of line 200 only notices a missing [error] when the name
    is mandatory: when every mandatory name has a value and [error] is not
    given, the [BadRequestKeyError] of [args['error']] escapes. *)
Theorem showpid_or_mdl_error_not_given (args : Args) (mandlist : list string)
    (st : State) :
  Forall (λ m, is_Some (args !! m)) mandlist →
  args !! "error" = None →
  validate_params_showpid_or_mdl args mandlist st =
    (Raises (Exn BadRequestKeyError "error"), st).
Proof.
  intros Hall Herr.
  pose proof (all_present_valid _ _ Hall) as Hv.
  unfold validate_params_showpid_or_mdl, showpid_or_mdl_body.
  rewrite Hv. cbn [negb orb].
  assert (bool_decide ("error" ∈ @nil string) = false) as Hl.
  { apply bool_decide_eq_false_2, not_elem_of_nil. }
  run. done.
Qed.

(** X21.  Whatever its outcome, a call of [validate_params_showpid_or_mdl]
    leaves the session as it was and logs at most one warning; it never
    returns a redirect, and a local answer has status 206, with one warning
    logged, or 203, with none. *)
Theorem showpid_or_mdl_effects (args : Args) (mandlist : list string)
    (st st' : State) (o : outcome Response) :
  validate_params_showpid_or_mdl args mandlist st = (o, st') →
  session st' = session st ∧
  match o with
  | Returns Valid => warnings st' = warnings st
  | Returns (LocalError body status) =>
      status = HTTP_206_PARTIAL_CONTENT ∧
        (∃ w, warnings st' = warnings st ++ [w]) ∨
      status = HTTP_203_NON_AUTHORITATIVE_INFORMATION ∧
        warnings st' = warnings st
  | Returns (RedirectDirective _ _ _ _) => False
  | Raises e => warnings st' = warnings st ∨ ∃ w, warnings st' = warnings st ++ [w]
  end.
Proof.
  destruct st as [sess log0].
  unfold validate_params_showpid_or_mdl, showpid_or_mdl_body.
  destruct (validate_mandatory_args args mandlist) as [b l].
  unfold_stmt. intros Hrun. cbv beta iota zeta in Hrun. split_runs.
  all: simpl; split; [done |].
  all: first [ done | by left | by right | left; split; [done |]; by eexists ].
Qed.

(** X22.  The two validations compose through the session: after a call of
    [validate_params_getpid_or_mdl] that returned [True], the session holds
    the device public key of that request, so a later call of
    [validate_params_showpid_or_mdl] on a request that misses a mandatory
    name finds [session['device_publickey']] and answers with status 206 and
    a warning that names that key. *)
Theorem showpid_after_getpid (args args' : Args) (mandlist mandlist' : list string)
    (st st1 : State) (route msg : string) :
  validate_params_getpid_or_mdl args mandlist st = (Returns Valid, st1) →
  ¬ Forall (λ m, is_Some (args' !! m)) mandlist' →
  session st !! "route" = Some route →
  error_list !! "101" = Some msg →
  ∃ key, args !! "device_publickey" = Some key ∧
    validate_params_showpid_or_mdl args' mandlist' st1 =
      (Returns (LocalError ("Error 101: " +:+ msg) HTTP_206_PARTIAL_CONTENT),
       logged st1 [warning route key msg]).
Proof.
  intros Hvalid Hmissing Hroute Hmsg.
  apply getpid_or_mdl_valid_inv in Hvalid
    as (key & returnURL & device_pub & (((Hkey & _) & _) & _) & _ & _ & ->).
  exists key. split; [done |].
  apply showpid_or_mdl_missing_run; [done | | | done].
  - simpl. by rewrite !lookup_insert_ne.
  - simpl. rewrite lookup_insert_ne by done. apply lookup_insert_eq.
Qed.

End ShowProperties.

(** * The properties on the sample inputs *)

Import Fixture.

(** [validate_mandatory_args] on a request without [version] and
    [certificate], asked for twice. *)
Example validate_mandatory_args_sample :
  validate_mandatory_args
    (list_to_map [("country", "PT"); ("returnURL", "")])
    ["version"; "country"; "certificate"; "returnURL"; "version"] =
  (false, ["version"; "certificate"; "version"]).
Proof. vm_compute. reflexivity. Qed.

(** The verifier on the sealed message: the recipient's key opens it. *)
Example validate_getpidtest_result_round_trip :
  validate_getpidtest_result sealed.1 nonce sealed.2
    (EllipticCurvePublicKey ec256_numbers) "hello" recipient = Returns true.
Proof. vm_compute. reflexivity. Qed.

(** A request that passes every check. *)
Example getpid_or_mdl_valid_sample :
  (validate_params_getpid_or_mdl
     (request "PT" ec256_certificate_b64 "https://wallet.example/cb")
     mandatory start).1 = Returns Valid.
Proof. vm_compute. reflexivity. Qed.

(** C1 on the sealed message with a tag of one zero byte, and with the key of
    a stranger: the verifier raises in both cases. *)
Lemma validate_getpidtest_result_bad_tag_sample :
  validate_getpidtest_result sealed.1 nonce [x00]
    (EllipticCurvePublicKey ec256_numbers) "hello" recipient =
    Raises (Exn ValueError "MAC check failed") ∧
  validate_getpidtest_result sealed.1 nonce sealed.2
    (EllipticCurvePublicKey ec256_numbers) "hello" stranger =
    Raises (Exn ValueError "MAC check failed").
Proof.
  split.
  - apply (validate_getpidtest_result_decryption_raises _ _ _ _ _ _ secp256r1);
      vm_compute; reflexivity.
  - apply (validate_getpidtest_result_decryption_raises _ _ _ _ _ _ secp256r1);
      vm_compute; reflexivity.
Defined.

(** C2 on the certificate with an RSA key: its algorithm is no key of the
    allow-list, and the validator raises. *)
Lemma validate_cert_algo_rsa_sample :
  cert_algo_list !! "sha256WithRSAEncryption" = None ∧
  ∃ e, validate_cert_algo (String.list_byte_of_string rsa_certificate_pem)
         cert_algo_list = Raises e ∧ exn_cls e = AttributeError.
Proof.
  split; [vm_compute; reflexivity |].
  apply (validate_cert_algo_key_without_curve _ _
           (Cert "sha256WithRSAEncryption" (Returns (RSAPublicKey rsa_modulus 65537)))
           (RSAPublicKey rsa_modulus 65537)).
  - vm_compute. reflexivity.
  - reflexivity.
  - discriminate.
Defined.

(** X1 on the certificate on P-521 signed with ECDSA and SHA-256: it is
    rejected, for the curve is only listed under another algorithm. *)
Lemma validate_cert_algo_elliptic_sample :
  validate_cert_algo (String.list_byte_of_string ec521_certificate_pem)
    cert_algo_list = Returns (false, "ecdsa-with-SHA256", "secp521r1") ∧
  cert_algo_list !! "ecdsa-with-SHA512" = Some ["secp521r1"].
Proof.
  split; [| vm_compute; reflexivity].
  refine (proj1 (proj2 (validate_cert_algo_elliptic
    (String.list_byte_of_string ec521_certificate_pem) cert_algo_list
    (Cert "ecdsa-with-SHA256" (Returns (EllipticCurvePublicKey ec521_numbers)))
    ec521_numbers _ _)) ["secp256r1"] _ _).
  - vm_compute. reflexivity.
  - reflexivity.
  - vm_compute. reflexivity.
  - vm_compute. intros Hin. apply list_elem_of_In in Hin.
    destruct Hin as [Heq|[]]. discriminate Heq.
Defined.

(** C6 on bytes that are no certificate. *)
Lemma validate_cert_algo_parse_failure_sample :
  validate_cert_algo (String.list_byte_of_string "not a certificate") cert_algo_list =
  Returns (false, "Unable to load PEM file. MalformedFraming", "unknown").
Proof.
  apply (validate_cert_algo_parse_failure _ _ pem_error). vm_compute. reflexivity.
Defined.

(** C4 on a request from the country ZZ. *)
Lemma getpid_or_mdl_country_sample :
  validate_params_getpid_or_mdl
    (request "ZZ" ec256_certificate_b64 "https://wallet.example/cb") mandatory start =
  (Returns (RedirectDirective "0.4" "https://wallet.example/cb" 102 []),
   recorded start device_public_key_b64 "https://wallet.example/cb"
     [warning "/pid/getpid" device_public_key_b64 "Country is not supported."]).
Proof.
  apply (proj1 (getpid_or_mdl_country_before_missing _ _ _)) with (country := "ZZ").
  - vm_compute. reflexivity.
  - vm_compute. reflexivity.
  - left. vm_compute. reflexivity.
  - vm_compute. reflexivity.
  - apply not_elem_of_dom. vm_compute. reflexivity.
  - vm_compute. reflexivity.
  - vm_compute. reflexivity.
  - vm_compute. reflexivity.
Defined.


(** C8 on a request that carries the certificate on P-521. *)
Lemma getpid_or_mdl_certificate_sample :
  validate_params_getpid_or_mdl
    (request "PT" ec521_certificate_b64 "https://wallet.example/cb") mandatory start =
  (Returns (RedirectDirective "0.4" "https://wallet.example/cb" 104
     [("error_str",
       "Certificate algorithm (ecdsa-with-SHA256) or curve (secp521r1) not supported.")]),
   recorded start device_public_key_b64 "https://wallet.example/cb"
     [warning "/pid/getpid" device_public_key_b64
        "Certificate algorithm or curve not supported."]).
Proof.
  apply (getpid_or_mdl_certificate_rejected _ _ _ _ _ "PT" ec521_certificate_b64
           _ _ _ "ecdsa-with-SHA256" "secp521r1"
           (String.list_byte_of_string ec521_certificate_pem)).
  - unfold mandatory. repeat constructor; eexists; vm_compute; reflexivity.
  - vm_compute. reflexivity.
  - vm_compute. reflexivity.
  - left. vm_compute. reflexivity.
  - vm_compute. reflexivity.
  - apply elem_of_dom. eexists. vm_compute. reflexivity.
  - vm_compute. reflexivity.
  - vm_compute. reflexivity.
  - vm_compute. reflexivity.
  - vm_compute. reflexivity.
  - vm_compute. reflexivity.
  - vm_compute. reflexivity.
Defined.

(** C9 on a request whose [error] is [abc], and on one whose [error] is [7]
    and that carries no [error_str]. *)
Lemma showpid_or_mdl_raises_sample :
  validate_params_showpid_or_mdl (list_to_map [("error", "abc")]) ["error"] start =
    (Raises (Exn ValueError "invalid literal for int() with base 10: 'abc'"), start) ∧
  validate_params_showpid_or_mdl (list_to_map [("error", "7")]) ["error"] start =
    (Raises (Exn BadRequestKeyError "error_str"), start).
Proof.
  split.
  - apply (proj1 (showpid_or_mdl_raises _ _ _) "abc").
    + repeat constructor; eexists; vm_compute; reflexivity.
    + vm_compute. reflexivity.
    + vm_compute. reflexivity.
  - apply (proj2 (showpid_or_mdl_raises _ _ _) "7" 7).
    + repeat constructor; eexists; vm_compute; reflexivity.
    + vm_compute. reflexivity.
    + vm_compute. reflexivity.
    + discriminate.
    + vm_compute. reflexivity.
Defined.

(** C10 on a request that reaches line 177. *)
Lemma getpid_or_mdl_public_key_guard_sample :
  ("device_publickey" ∉
     (validate_mandatory_args
        (request "PT" ec256_certificate_b64 "https://wallet.example/cb") mandatory).2) ∧
  validate_params_getpid_or_mdl
    (request "PT" ec256_certificate_b64 "https://wallet.example/cb") mandatory start =
    call (public_key_format_check
            (request "PT" ec256_certificate_b64 "https://wallet.example/cb");;
          return_ Valid)
      (recorded start device_public_key_b64 "https://wallet.example/cb" []).
Proof.
  apply getpid_or_mdl_public_key_guard. vm_compute. reflexivity.
Defined.

(** * The further properties on the sample inputs *)

Import Samples.

(** C5 on a request whose return URL is [//[::1], which has no scheme, under
    the third instance of the libraries. *)
Lemma getpid_or_mdl_returnURL_urlparse_raises_sample :
  validate_params_getpid_or_mdl (H := netloc_libraries)
    (request "XX" ec256_certificate_b64 "//[::1") mandatory start =
    (Raises (Exn ValueError "Invalid IPv6 URL"),
     recorded start device_public_key_b64 "//[::1" []).
Proof.
  apply (getpid_or_mdl_returnURL_urlparse_raises (H := netloc_libraries));
    decide_sample.
Defined.

(** X5 on a request that gains a [version]. *)
Lemma validate_mandatory_args_mono_sample :
  sublist
    (validate_mandatory_args (<["version" := "0.4"]> {["country" := "PT"]})
       ["version"; "country"; "certificate"]).2
    (validate_mandatory_args {["country" := "PT"]}
       ["version"; "country"; "certificate"]).2 ∧
  ((validate_mandatory_args {["country" := "PT"]}
      ["version"; "country"; "certificate"]).1 = true →
   (validate_mandatory_args (<["version" := "0.4"]> {["country" := "PT"]})
      ["version"; "country"; "certificate"]).1 = true).
Proof.
  apply validate_mandatory_args_mono. apply insert_subseteq. decide_sample.
Defined.

(** X8 on the valid request without its device public key, with the name
    mandatory and not. *)
Lemma getpid_or_mdl_no_device_publickey_sample :
  validate_params_getpid_or_mdl (delete "device_publickey" good_request)
    mandatory start =
    (Returns (LocalError ("Error 15: Query with no device_publickey." +:+ LF) 400),
     logged start [route_warning "/pid/getpid" "Query with no device_publickey."]) ∧
  validate_params_getpid_or_mdl (delete "device_publickey" good_request)
    without_key start =
    (Raises (Exn BadRequestKeyError "device_publickey"), start).
Proof.
  split.
  - refine (proj1 (getpid_or_mdl_no_device_publickey _ _ _ _)
                     "/pid/getpid" "Query with no device_publickey." _ _ _);
      decide_sample.
  - refine (proj2 (getpid_or_mdl_no_device_publickey _ _ _ _) _); decide_sample.
Defined.

(** X9 on the valid request without its return URL. *)
Lemma getpid_or_mdl_no_returnURL_sample :
  validate_params_getpid_or_mdl (delete "returnURL" good_request) mandatory start =
    (Returns (LocalError ("Error 11: Query with no returnURL." +:+ LF) 400),
     key_recorded start device_public_key_b64
       [warning "/pid/getpid" device_public_key_b64 "Query with no returnURL."]) ∧
  validate_params_getpid_or_mdl (delete "returnURL" good_request)
    without_returnURL start =
    (Raises (Exn BadRequestKeyError "returnURL"),
     key_recorded start device_public_key_b64 []).
Proof.
  split.
  - refine (proj1 (getpid_or_mdl_no_returnURL _ _ _ _ _ _)
                     "/pid/getpid" "Query with no returnURL." _ _ _);
      decide_sample.
  - refine (proj2 (getpid_or_mdl_no_returnURL _ _ _ _ _ _) _); decide_sample.
Defined.

(** X10 on the valid request without its version, and without its country. *)
Lemma getpid_or_mdl_missing_fields_sample :
  validate_params_getpid_or_mdl (delete "version" good_request) mandatory start =
    (Returns (RedirectDirective "0.4" "https://wallet.example/cb" 101 []),
     recorded start device_public_key_b64 "https://wallet.example/cb"
       [warning "/pid/getpid" device_public_key_b64 "Missing mandatory fields."]) ∧
  validate_params_getpid_or_mdl (delete "country" good_request) mandatory start =
    (Returns (RedirectDirective "0.4" "https://wallet.example/cb" 101 []),
     recorded start device_public_key_b64 "https://wallet.example/cb"
       [warning "/pid/getpid" device_public_key_b64 "Missing mandatory fields."]).
Proof.
  split; apply getpid_or_mdl_missing_fields; decide_sample.
Defined.

(** X11 on a request whose certificate is [abc], three data characters that
    do not fill a group of four, and on the valid request without its
    certificate, the name not being mandatory. *)
Lemma getpid_or_mdl_certificate_not_decoded_sample :
  validate_params_getpid_or_mdl
    (request "PT" "abc" "https://wallet.example/cb") mandatory start =
    (Returns (RedirectDirective "0.4" "https://wallet.example/cb" 103
       [("error_str", "Certificate not correctly encoded - Incorrect padding")]),
     recorded start device_public_key_b64 "https://wallet.example/cb"
       [warning "/pid/getpid" device_public_key_b64
          "Certificate not correctly encoded."]) ∧
  validate_params_getpid_or_mdl
    (delete "certificate" good_request) without_certificate start =
    (Returns (RedirectDirective "0.4" "https://wallet.example/cb" 103
       [("error_str", "Certificate not correctly encoded - " +:+ bad_request_text)]),
     recorded start device_public_key_b64 "https://wallet.example/cb"
       [warning "/pid/getpid" device_public_key_b64
          "Certificate not correctly encoded."]).
Proof.
  split.
  - apply (getpid_or_mdl_certificate_not_decoded _ _ _ _ _ _ _ _
             (Exn BinasciiError "Incorrect padding")); decide_sample.
  - apply (getpid_or_mdl_certificate_not_decoded _ _ _ _ _ _ _ _
             (Exn BadRequestKeyError "certificate")); decide_sample.
Defined.

(** X12 on a request whose device public key is the encoded certificate. *)
Lemma getpid_or_mdl_public_key_not_pem_sample :
  validate_params_getpid_or_mdl
    (request_with_key ec256_certificate_b64 "PT" ec256_certificate_b64
       "https://wallet.example/cb") mandatory start =
    (Returns (LocalError ("Error 16: device_publickey is not a PEM public key." +:+ LF) 400),
     recorded start ec256_certificate_b64 "https://wallet.example/cb"
       [route_warning "/pid/getpid" "device_publickey is not a PEM public key."]).
Proof.
  apply (getpid_or_mdl_public_key_not_pem _ _ _ _ _ _ _
           (String.list_byte_of_string ec256_certificate_pem)); decide_sample.
Defined.

(** X13 on a return URL with a bracket that is not closed and on the
    certificate with the RSA key, under the second instance of the
    libraries; on a request without country whose mandatory list does not
    name it, and on the device public key [abc], three data characters
    that do not fill a group of four. *)
Lemma getpid_or_mdl_escaping_exceptions_sample :
  validate_params_getpid_or_mdl (H := wider_libraries)
    (request "PT" ec256_certificate_b64 "http://[::1") mandatory start =
    (Raises (Exn ValueError "Invalid IPv6 URL"),
     recorded start device_public_key_b64 "http://[::1" []) ∧
  validate_params_getpid_or_mdl (delete "country" good_request)
    without_country start =
    (Raises (Exn BadRequestKeyError "country"),
     recorded start device_public_key_b64 "https://wallet.example/cb" []) ∧
  validate_params_getpid_or_mdl (H := wider_libraries)
    (request "PT" rsa_certificate_b64 "https://wallet.example/cb") mandatory start =
    (Raises (Exn AttributeError "'RSAPublicKey' object has no attribute 'curve'"),
     recorded start device_public_key_b64 "https://wallet.example/cb" []) ∧
  validate_params_getpid_or_mdl
    (request_with_key "abc" "PT" ec256_certificate_b64 "https://wallet.example/cb")
    mandatory start =
    (Raises (Exn BinasciiError "Incorrect padding"),
     recorded start "abc" "https://wallet.example/cb" []).
Proof.
  split; [| split; [| split]].
  - refine (proj1 (getpid_or_mdl_escaping_exceptions (H := wider_libraries)
                     _ _ _ _ _ _) _ _ _ _); decide_sample.
  - refine (proj1 (proj2 (getpid_or_mdl_escaping_exceptions _ _ _ _ _ pem_error))
              _ _ _); decide_sample.
  - refine (proj1 (proj2 (proj2 (getpid_or_mdl_escaping_exceptions
                                   (H := wider_libraries) _ _ _ _ _ _)))
              rsa_certificate_b64
              (String.list_byte_of_string rsa_certificate_pem) _ _ _ _);
      decide_sample.
  - refine (proj2 (proj2 (proj2 (getpid_or_mdl_escaping_exceptions _ _ _ _ _ _)))
              _ _); decide_sample.
Defined.

(** X15 on the request from the country ZZ. *)
Lemma getpid_or_mdl_effects_sample :
  (session rejected = session start ∨
   ∃ key, request "ZZ" ec256_certificate_b64 "https://wallet.example/cb"
            !! "device_publickey" = Some key ∧
     (session rejected = <["device_publickey" := key]> (session start) ∨
      ∃ returnURL,
        request "ZZ" ec256_certificate_b64 "https://wallet.example/cb"
          !! "returnURL" = Some returnURL ∧
        session rejected = <["returnURL" := returnURL]>
                             (<["device_publickey" := key]> (session start)))) ∧
  ∃ log, warnings rejected = warnings start ++ log ∧
         (length log ≤ 1)%nat ∧
         (Returns (RedirectDirective "0.4" "https://wallet.example/cb" 102 [])
            = Returns Valid → log = []) ∧
         (∀ r, Returns (RedirectDirective "0.4" "https://wallet.example/cb" 102 [])
                 = Returns r → r ≠ Valid → length log = 1%nat).
Proof.
  apply (getpid_or_mdl_effects
           (request "ZZ" ec256_certificate_b64 "https://wallet.example/cb")
           mandatory start rejected). decide_sample.
Defined.

(** X16 on the same request. *)
Lemma getpid_or_mdl_answers_sample :
  session start !! "version" = Some "0.4" ∧
  request "ZZ" ec256_certificate_b64 "https://wallet.example/cb" !! "returnURL"
    = Some "https://wallet.example/cb" ∧
  returnURL_accepted "https://wallet.example/cb" ∧
  (102 = 101 ∧ @nil (string * string) = [] ∨ 102 = 102 ∧ @nil (string * string) = [] ∨
   102 = 103 ∨ 102 = 104).
Proof.
  apply (getpid_or_mdl_answers
           (request "ZZ" ec256_certificate_b64 "https://wallet.example/cb")
           mandatory start rejected
           (RedirectDirective "0.4" "https://wallet.example/cb" 102 [])).
  decide_sample.
Defined.

(** X17 on a request for the show page without [error], the name being
    mandatory, in the state a valid request left behind. *)
Lemma showpid_or_mdl_missing_fields_sample :
  validate_params_showpid_or_mdl (delete "error" (show_request "0"))
    show_mandatory issued =
    (Returns (LocalError ("Error 101: " +:+ "Missing mandatory fields.") 206),
     logged issued
       [warning "/pid/getpid" device_public_key_b64 "Missing mandatory fields."]).
Proof. apply showpid_or_mdl_missing_fields; decide_sample. Defined.

(** X20 on the same request, the name not being mandatory. *)
Lemma showpid_or_mdl_error_not_given_sample :
  validate_params_showpid_or_mdl (delete "error" (show_request "0"))
    ["version"] issued =
    (Raises (Exn BadRequestKeyError "error"), issued).
Proof. apply showpid_or_mdl_error_not_given; decide_sample. Defined.

(** X18 on a request whose [error] is 7. *)
Lemma showpid_or_mdl_error_reported_sample :
  validate_params_showpid_or_mdl (show_request "7") show_mandatory issued =
    (Returns (LocalError ("Error " +:+ "7" +:+ ": " +:+ "denied") 203), issued).
Proof. apply (showpid_or_mdl_error_reported _ _ _ _ _ 7); decide_sample. Defined.

(** X21 on the same request. *)
Lemma showpid_or_mdl_effects_sample :
  session issued = session issued ∧
  (203 = HTTP_206_PARTIAL_CONTENT ∧
     (∃ w, warnings issued = warnings issued ++ [w]) ∨
   203 = HTTP_203_NON_AUTHORITATIVE_INFORMATION ∧
     warnings issued = warnings issued).
Proof.
  apply (showpid_or_mdl_effects (show_request "7") show_mandatory issued issued
           (Returns (LocalError ("Error " +:+ "7" +:+ ": " +:+ "denied") 203))).
  decide_sample.
Defined.

(** X22 on the valid request followed by a request for the show page
    without [error]. *)
Lemma showpid_after_getpid_sample :
  ∃ key, good_request !! "device_publickey" = Some key ∧
    validate_params_showpid_or_mdl (delete "error" (show_request "0"))
      show_mandatory issued =
      (Returns (LocalError ("Error 101: " +:+ "Missing mandatory fields.") 206),
       logged issued [warning "/pid/getpid" key "Missing mandatory fields."]).
Proof.
  apply (showpid_after_getpid good_request _ mandatory show_mandatory start);
    decide_sample.
Defined.
